(** * AuraLog: streak and activity-heatmap aggregation of [app.py]

    A shallow embedding of [calculate_streak] and [create_activity_heatmap]
    (app.py, lines 9-83 and 87-161) and of the pandas operations they call,
    followed by the properties of the temporal aggregation logic.

    Conventions.
    - A calendar date is its proleptic Gregorian ordinal ([date.toordinal()]),
      an integer; [d - timedelta(days=1)] is [d - 1] and
      [(a - b) == timedelta(days=1)] is [a - b = 1].
    - A pandas [Timestamp] is its number of nanoseconds since 1970-01-01.
    - [pd.to_datetime] is a parameter of the development in two parts: how
      it converts one value as part of a given column ([to_datetime1]; the
      format is inferred from the column, so the same text may convert in
      one column and not in another), and what it makes of the column as a
      whole ([to_datetime_kind]): a datetime column, an object column (as
      for values with different UTC offsets) on which [.dt] raises, or an
      exception. Exceptions raised by [pd.to_datetime] are [ValueError] or
      [TypeError].
    - [calplot.calplot] is a parameter as far as its exceptions go
      ([calplot_raises]).
    - [st.warning] / [st.error] calls are collected, in order, in the list of
      messages a function returns next to its result; the result is a value
      or the exception that leaves the function. *)

From Stdlib Require Import ZArith List String Ascii Bool Lia Permutation Sorted.
Import ListNotations.
Open Scope Z_scope.

(** ** Dates and timestamps *)

Definition date := Z.
Definition timestamp := Z.

Definition NS_PER_DAY : Z := 86400000000000.
(** [date(1970, 1, 1).toordinal()] *)
Definition EPOCH_ORDINAL : Z := 719163.

(** [Series.dt.date] on one timestamp (time of day discarded). *)
Definition dt_date (t : timestamp) : date := EPOCH_ORDINAL + t / NS_PER_DAY.

(** [pd.to_datetime] on one [datetime.date] of an index: midnight of that day. *)
Definition date_to_datetime (d : date) : timestamp := (d - EPOCH_ORDINAL) * NS_PER_DAY.

(** ** The pandas operations used by app.py *)

Module Pandas.

(** A cell of a frame read by [pd.read_csv]: [None] is a missing value (NaN). *)
Definition cell := option string.

(** A frame is kept row-wise: one list of cells per record. *)
Record DataFrame := mkDataFrame {
  columns : list string;
  rows : list (list cell)
}.

(** [df.empty]: some axis has length 0. *)
Definition empty (df : DataFrame) : bool :=
  match columns df, rows df with
  | [], _ => true
  | _, [] => true
  | _, _ => false
  end.

(** [name in df.columns] *)
Definition has_column (name : string) (df : DataFrame) : bool :=
  existsb (String.eqb name) (columns df).

(** Position of the first column called [name]. *)
Fixpoint get_loc (name : string) (cols : list string) : nat :=
  match cols with
  | [] => O
  | c :: cols' => if String.eqb name c then O else S (get_loc name cols')
  end.

(** [df.iloc[:, i]] *)
Definition iloc_col (i : nat) (df : DataFrame) : list cell :=
  map (fun r => nth i r None) (rows df).

(** [df[name]] for a column that exists ([pd.read_csv] makes column names
    distinct, so the first match is the column). *)
Definition getitem (df : DataFrame) (name : string) : list cell :=
  iloc_col (get_loc name (columns df)) df.

(** What [pd.to_datetime] makes of one value: a timestamp, the null
    timestamp NaT without complaint, or a value it cannot convert. *)
Inductive converted :=
| Stamp (t : timestamp)
| NaT
| Invalid.

(** [Series.unique()]: distinct values in order of first appearance. *)
Fixpoint unique_from (seen : list Z) (l : list Z) : list Z :=
  match l with
  | [] => []
  | x :: l' =>
      if existsb (Z.eqb x) seen then unique_from seen l'
      else x :: unique_from (x :: seen) l'
  end.

Definition unique (l : list Z) : list Z := unique_from [] l.

(** [Series.value_counts()]: a table of the distinct values with their
    number of occurrences, most frequent first. *)
Fixpoint bump (d : Z) (table : list (Z * Z)) : list (Z * Z) :=
  match table with
  | [] => [(d, 1)]
  | (k, c) :: table' =>
      if k =? d then (k, c + 1) :: table' else (k, c) :: bump d table'
  end.

Definition count_table (l : list Z) : list (Z * Z) :=
  fold_left (fun table d => bump d table) l [].

Fixpoint insert_by_count (e : Z * Z) (l : list (Z * Z)) : list (Z * Z) :=
  match l with
  | [] => [e]
  | e' :: l' =>
      if snd e' <=? snd e then e :: l else e' :: insert_by_count e l'
  end.

Definition sort_values_desc (l : list (Z * Z)) : list (Z * Z) :=
  fold_right insert_by_count [] l.

Definition value_counts (l : list Z) : list (Z * Z) :=
  sort_values_desc (count_table l).

(** [Series.sort_index()]: rows ordered by index label, ascending. *)
Fixpoint insert_by_index (e : Z * Z) (l : list (Z * Z)) : list (Z * Z) :=
  match l with
  | [] => [e]
  | e' :: l' =>
      if fst e <=? fst e' then e :: l else e' :: insert_by_index e l'
  end.

Definition sort_index (l : list (Z * Z)) : list (Z * Z) :=
  fold_right insert_by_index [] l.

(** What [pd.to_datetime] makes of a column as a whole. *)
Inductive kind :=
| datetimelike
| object_column
| conversion_error (text : string).

(** The column [pd.to_datetime] returns, NaT being [None]: of dtype
    datetime64, or of dtype object. *)
Inductive series :=
| datetime64 (values : list (option timestamp))
| object_dtype (values : list (option timestamp)).

Definition values_of (parsed : series) : list (option timestamp) :=
  match parsed with
  | datetime64 values => values
  | object_dtype values => values
  end.

Section ToDatetime.

(** The conversion of one value that stands in the given column. *)
Variable to_datetime1 : list cell -> string -> converted.

(** The kind of result for the given column. *)
Variable to_datetime_kind : list cell -> kind.

Definition convert_cell (col : list cell) (c : cell) : converted :=
  match c with
  | None => NaT
  | Some s => to_datetime1 col s
  end.

Definition is_invalid (v : converted) : bool :=
  match v with
  | Invalid => true
  | Stamp _ => false
  | NaT => false
  end.

(** The values of the column with what cannot be converted set to NaT. *)
Definition coerced (col : list cell) : list (option timestamp) :=
  map (fun c => match convert_cell col c with
                | Stamp t => Some t
                | NaT => None
                | Invalid => None
                end) col.

(** The column returned when no value is rejected, by the kind of the
    column; [inl text] when [pd.to_datetime] raises on the column as a
    whole, with the text of the exception. *)
Definition assemble (col : list cell) : string + series :=
  match to_datetime_kind col with
  | datetimelike => inr (datetime64 (coerced col))
  | object_column => inr (object_dtype (coerced col))
  | conversion_error text => inl text
  end.

(** [pd.to_datetime(col, errors='raise')]: [None] when it raises, which it
    does when a value of the column cannot be converted, or the column as
    a whole cannot. *)
Definition to_datetime_raise (col : list cell) : option series :=
  if existsb (fun c => is_invalid (convert_cell col c)) col then None
  else match assemble col with
       | inl _ => None
       | inr parsed => Some parsed
       end.

(** [pd.to_datetime(col, errors='coerce')]: values that cannot be converted
    become NaT; [inl text] when it raises, with the text of the exception. *)
Definition to_datetime_coerce (col : list cell) : string + series :=
  assemble col.

End ToDatetime.

End Pandas.

(** ** Python built-ins *)

(** [sorted(xs, reverse=True)] *)
Fixpoint insert_desc (x : Z) (l : list Z) : list Z :=
  match l with
  | [] => [x]
  | y :: l' => if y <=? x then x :: l else y :: insert_desc x l'
  end.

Definition sorted_reverse (l : list Z) : list Z := fold_right insert_desc [] l.

(** ** The record store as the two functions observe it *)

Import Pandas.

(** Exceptions of the reading stage, with their text. *)
Inductive exn :=
| FileNotFoundError (text : string)
| EmptyDataError (text : string)
| OtherException (text : string).

Definition exn_text (e : exn) : string :=
  match e with
  | FileNotFoundError text => text
  | EmptyDataError text => text
  | OtherException text => text
  end.

(** The file at [csv_path]: absent ([os.path.exists] is false), or present
    with its size ([os.path.getsize]) and what [pd.read_csv] does on it. *)
Inductive csv_file :=
| Absent
| OnDisk (size : Z) (read_csv : exn + DataFrame).

(** Messages shown through streamlit. *)
Inductive st_message :=
| st_warning (text : string)
| st_error (text : string).

(** The figure returned by [calplot.calplot(events, ...)]; the styling
    arguments are constants. *)
Inductive figure :=
| calplot (events : list (timestamp * Z)).

(** Exceptions that no handler of the page catches: the one [.dt] raises on
    a column that is not datetime-like (lines 63, 138), and whatever
    [calplot.calplot] raises (line 147). *)
Inductive uncaught :=
| AttributeError (text : string)
| CalplotError (text : string).

(** How a function ends: with a value, or with an exception. *)
Inductive result (A : Type) :=
| value (a : A)
| raised (e : uncaught).

Arguments value {A} a.
Arguments raised {A} e.

Definition dt_accessor_text : string :=
  "Can only use .dt accessor with datetimelike values".

(** [df.dropna(subset=['parsed_timestamp'])]: the rows whose parsed
    timestamp is not NaT, in order. *)
Fixpoint dropna (frame : list (list cell * option timestamp))
  : list (list cell * timestamp) :=
  match frame with
  | [] => []
  | (r, Some t) :: frame' => (r, t) :: dropna frame'
  | (_, None) :: frame' => dropna frame'
  end.

(** Truthiness of a Python string. *)
Definition truthy (s : string) : bool :=
  match s with
  | EmptyString => false
  | _ => true
  end.

(** The loop of lines 76-81: [idx] is what is left of [range(1, len(unique_dates))]. *)
Fixpoint streak_loop (idx : list nat) (unique_dates : list date)
    (current_streak : Z) (last_streak_date : date) : Z :=
  match idx with
  | [] => current_streak
  | i :: idx' =>
      if last_streak_date - nth i unique_dates 0 =? 1
      then streak_loop idx' unique_dates (current_streak + 1) (nth i unique_dates 0)
      else current_streak (* break *)
  end.

(** Lines 66-83, on the sorted distinct dates. *)
Definition streak_of_unique_dates (unique_dates : list date) (today : date) : Z :=
  match unique_dates with
  | [] => 0
  | first :: _ =>
      if (first =? today) || (first =? today - 1)
      then streak_loop (seq 1 (List.length unique_dates - 1)) unique_dates 1 first
      else 0
  end.

(** Lines 63-83, on the [date] column of the rows that are left. *)
Definition streak_of_dates (dates : list date) (today : date) : Z :=
  streak_of_unique_dates (sorted_reverse (unique dates)) today.

(** Lines 138: [value_counts().sort_index()] on the dates of the rows that are left. *)
Definition daily_counts (dates : list date) : list (date * Z) :=
  sort_index (value_counts dates).

(** Lines 141: the same counts under a [DatetimeIndex]. *)
Definition events_of (counts : list (date * Z)) : list (timestamp * Z) :=
  map (fun e => (date_to_datetime (fst e), snd e)) counts.

Section App.

Variable to_datetime1 : list cell -> string -> converted.
Variable to_datetime_kind : list cell -> kind.

(** The text of the exception [calplot.calplot] raises on the given events,
    if it raises. *)
Variable calplot_raises : list (timestamp * Z) -> option string.

(** *** [calculate_streak] *)

(** Lines 33-47: the column chosen, or the warning of an early return. *)
Definition streak_timestamp_col (df : DataFrame) : st_message + string :=
  if has_column "timestamp" df then inr "timestamp"%string
  else if has_column "Date and Time" df then inr "Date and Time"%string
  else if (0 <? List.length (columns df))%nat then
    match to_datetime_raise to_datetime1 to_datetime_kind (iloc_col 0 df) with
    | Some _ => inr (nth 0 (columns df) ""%string)
    | None => inl (st_warning "Streak: Could not identify a suitable timestamp column.")
    end
  else inl (st_warning "Streak: CSV file has no columns.").

(** Lines 53-63: the [date] column after parsing and [dropna]; [value None]
    stands for the two early returns (the handler of lines 55-57 with its
    warning, and no row left); on an object column [.dt] raises at line 63,
    outside every handler. *)
Definition streak_dates (df : DataFrame) (timestamp_col_name : string)
  : list st_message * result (option (list date)) :=
  match to_datetime_coerce to_datetime1 to_datetime_kind
          (getitem df timestamp_col_name) with
  | inl e =>
      ([st_warning ("Streak: Error parsing timestamp column '"
                    ++ timestamp_col_name ++ "': " ++ e)%string],
       value None)
  | inr parsed_timestamp =>
      match dropna (combine (rows df) (values_of parsed_timestamp)) with
      | [] => ([], value None)
      | kept =>
          match parsed_timestamp with
          | datetime64 _ => ([], value (Some (map (fun r => dt_date (snd r)) kept)))
          | object_dtype _ => ([], raised (AttributeError dt_accessor_text))
          end
      end
  end.

(** Lines 9-83. The path handling of lines 12-16 rebuilds [csv_path]. *)
Definition calculate_streak (file : csv_file) (today : date)
  : list st_message * result Z :=
  match file with
  | Absent => ([], value 0)
  | OnDisk size read_csv =>
      if size =? 0 then ([], value 0)
      else
        match read_csv with
        | inl (FileNotFoundError _) => ([], value 0)
        | inl (EmptyDataError _) => ([], value 0)
        | inl (OtherException text) =>
            ([st_error ("Error reading mood data for streak: " ++ text)], value 0)
        | inr df =>
            if empty df then ([], value 0)
            else
              match streak_timestamp_col df with
              | inl warning => ([warning], value 0)
              | inr timestamp_col_name =>
                  if negb (truthy timestamp_col_name)
                  then ([st_warning "Streak: Timestamp column could not be determined."],
                        value 0)
                  else
                    match streak_dates df timestamp_col_name with
                    | (messages, raised e) => (messages, raised e)
                    | (messages, value None) => (messages, value 0)
                    | (messages, value (Some dates)) =>
                        (messages, value (streak_of_dates dates today))
                    end
              end
        end
  end.

(** *** [create_activity_heatmap] *)

(** Lines 107-121. *)
Definition heatmap_timestamp_col (df : DataFrame) : st_message + string :=
  if has_column "timestamp" df then inr "timestamp"%string
  else if has_column "Date and Time" df then inr "Date and Time"%string
  else if (0 <? List.length (columns df))%nat then
    match to_datetime_raise to_datetime1 to_datetime_kind (iloc_col 0 df) with
    | Some _ => inr (nth 0 (columns df) ""%string)
    | None => inl (st_warning "Heatmap: Could not identify a suitable timestamp column.")
    end
  else inl (st_warning "Heatmap: CSV file has no columns.").

(** Lines 127-138: the dates of [df['parsed_timestamp'].dt.date] after
    [dropna]; [value None] stands for the two early returns (the handler of
    lines 129-131, and no row left); on an object column [.dt] raises at
    line 138, outside every handler. *)
Definition heatmap_dates (df : DataFrame) (timestamp_col_name : string)
  : list st_message * result (option (list date)) :=
  match to_datetime_coerce to_datetime1 to_datetime_kind
          (getitem df timestamp_col_name) with
  | inl e =>
      ([st_warning ("Heatmap: Error parsing timestamp column '"
                    ++ timestamp_col_name ++ "': " ++ e)%string],
       value None)
  | inr parsed_timestamp =>
      match dropna (combine (rows df) (values_of parsed_timestamp)) with
      | [] => ([], value None)
      | kept =>
          match parsed_timestamp with
          | datetime64 _ => ([], value (Some (map dt_date (map snd kept))))
          | object_dtype _ => ([], raised (AttributeError dt_accessor_text))
          end
      end
  end.

(** Lines 87-161. Lines 138-161 are outside every handler. *)
Definition create_activity_heatmap (file : csv_file)
  : list st_message * result (option figure) :=
  match file with
  | Absent => ([], value None)
  | OnDisk size read_csv =>
      if size =? 0 then ([], value None)
      else
        match read_csv with
        | inl e =>
            ([st_error ("Error reading data for heatmap: " ++ exn_text e)], value None)
        | inr df =>
            if empty df then ([], value None)
            else
              match heatmap_timestamp_col df with
              | inl warning => ([warning], value None)
              | inr timestamp_col_name =>
                  if negb (truthy timestamp_col_name)
                  then ([st_warning "Heatmap: Timestamp column could not be determined."],
                        value None)
                  else
                    match heatmap_dates df timestamp_col_name with
                    | (messages, raised e) => (messages, raised e)
                    | (messages, value None) => (messages, value None)
                    | (messages, value (Some dates)) =>
                        match events_of (daily_counts dates) with
                        | [] => (messages, value None)
                        | events =>
                            match calplot_raises events with
                            | Some text => (messages, raised (CalplotError text))
                            | None => (messages, value (Some (calplot events)))
                            end
                        end
                    end
              end
        end
  end.

End App.

(** ** The streak algorithm as the specification words it (section 4.2) *)

Module Spec.

(** Step 2, "reduce to the set of distinct dates, sort descending": the
    dates are added one by one to a strictly descending list. *)
Fixpoint add_desc (x : date) (l : list date) : list date :=
  match l with
  | [] => [x]
  | y :: l' =>
      if y <? x then x :: l
      else if y =? x then l
      else y :: add_desc x l'
  end.

Definition distinct_desc (dates : list date) : list date :=
  fold_right add_desc [] dates.

(** Step 5: walk the remaining dates; a date one day before the cursor
    extends the streak and becomes the cursor, any other date stops the
    scan. The result is the number of increments. *)
Fixpoint walk (cursor : date) (remaining : list date) : Z :=
  match remaining with
  | [] => 0
  | d :: remaining' =>
      if d =? cursor - 1 then 1 + walk d remaining' else 0
  end.

(** Steps 1-6. *)
Definition currentStreak (dates : list date) (today : date) : Z :=
  match dates with
  | [] => 0
  | _ =>
      match distinct_desc dates with
      | [] => 0
      | recent :: remaining =>
          if (recent =? today) || (recent =? today - 1)
          then 1 + walk recent remaining
          else 0
      end
  end.

End Spec.

(** ** A converter for examples: ISO dates with an optional time of day *)

Module Iso.

Definition digit (c : ascii) : option Z :=
  let n := Z.of_nat (nat_of_ascii c) in
  if (48 <=? n) && (n <=? 57) then Some (n - 48) else None.

Fixpoint number (acc : Z) (cs : list ascii) : option Z :=
  match cs with
  | [] => Some acc
  | c :: cs' =>
      match digit c with
      | Some d => number (10 * acc + d) cs'
      | None => None
      end
  end.

Definition is_leap (y : Z) : bool :=
  ((y mod 4 =? 0) && negb (y mod 100 =? 0)) || (y mod 400 =? 0).

Definition days_in_month (y m : Z) : Z :=
  if m =? 2 then (if is_leap y then 29 else 28)
  else if (m =? 4) || (m =? 6) || (m =? 9) || (m =? 11) then 30
  else 31.

(** Days from 1970-01-01 to the civil date [y]-[m]-[d]. *)
Definition days_from_civil (y m d : Z) : Z :=
  let y' := if m <=? 2 then y - 1 else y in
  let era := y' / 400 in
  let yoe := y' - era * 400 in
  let doy := (153 * (if 2 <? m then m - 3 else m + 9) + 2) / 5 + d - 1 in
  let doe := yoe * 365 + yoe / 4 - yoe / 100 + doy in
  era * 146097 + doe - 719468.

Definition civil (y m d hh mm ss : Z) : converted :=
  if (1 <=? m) && (m <=? 12) && (1 <=? d) && (d <=? days_in_month y m)
     && (hh <? 24) && (mm <? 60) && (ss <? 60)
  then Stamp (days_from_civil y m d * NS_PER_DAY
              + ((hh * 60 + mm) * 60 + ss) * 1000000000)
  else Invalid.

Definition fields (y m d hh mm ss : list ascii) : converted :=
  match number 0 y, number 0 m, number 0 d,
        number 0 hh, number 0 mm, number 0 ss with
  | Some y, Some m, Some d, Some hh, Some mm, Some ss => civil y m d hh mm ss
  | _, _, _, _, _, _ => Invalid
  end.

(** "YYYY-MM-DD" or "YYYY-MM-DD HH:MM:SS"; the text "NaT" is the null
    timestamp; anything else is not converted. *)
Definition to_datetime1 (s : string) : converted :=
  match list_ascii_of_string s with
  | [y1; y2; y3; y4; "-"; m1; m2; "-"; d1; d2]%char =>
      fields [y1; y2; y3; y4] [m1; m2] [d1; d2] [] [] []
  | [y1; y2; y3; y4; "-"; m1; m2; "-"; d1; d2; " ";
     h1; h2; ":"; n1; n2; ":"; s1; s2]%char =>
      fields [y1; y2; y3; y4] [m1; m2] [d1; d2] [h1; h2] [n1; n2] [s1; s2]
  | ["N"; "a"; "T"]%char => NaT
  | _ => Invalid
  end.

(** The ordinal of a civil date, for writing [today]. *)
Definition ordinal (y m d : Z) : date := EPOCH_ORDINAL + days_from_civil y m d.

(** The UTC offset "+HH:MM" or "-HH:MM" that ends a value, if any. *)
Definition offset_of (s : string) : option string :=
  match list_ascii_of_string s with
  | [_; _; _; _; _; _; _; _; _; _; _; _; _; _; _; _; _; _; _;
     sign; a; b; ":"; c; d]%char =>
      if (Ascii.eqb sign "+" || Ascii.eqb sign "-")%bool
      then Some (string_of_list_ascii [sign; a; b; ":"%char; c; d])
      else None
  | _ => None
  end.

(** The value without its offset: the wall-clock time, whose day is the
    day [.dt.date] gives. *)
Definition wall_clock (s : string) : string :=
  match offset_of s with
  | Some _ => substring 0 19 s
  | None => s
  end.

(** The formats told apart: date, date and time, date and time and offset. *)
Inductive format := date_only | date_time | date_time_offset.

Definition format_eqb (f g : format) : bool :=
  match f, g with
  | date_only, date_only => true
  | date_time, date_time => true
  | date_time_offset, date_time_offset => true
  | _, _ => false
  end.

Definition format_of (s : string) : option format :=
  match to_datetime1 (wall_clock s) with
  | Stamp _ =>
      match offset_of s with
      | Some _ => Some date_time_offset
      | None => if (String.length s =? 10)%nat then Some date_only else Some date_time
      end
  | NaT => None
  | Invalid => None
  end.

(** The format inferred for a column: that of its first value that is not
    missing, when it has one. *)
Fixpoint inferred (col : list cell) : option format :=
  match col with
  | [] => None
  | None :: col' => inferred col'
  | Some s :: _ => format_of s
  end.

(** The conversion of a value within a column: under the inferred format
    when there is one, value by value otherwise. *)
Definition in_column (col : list cell) (s : string) : converted :=
  match inferred col with
  | Some f =>
      match format_of s with
      | Some g => if format_eqb f g then to_datetime1 (wall_clock s) else Invalid
      | None => to_datetime1 s
      end
  | None => to_datetime1 (wall_clock s)
  end.

(** The offsets of the values of a column that convert. *)
Definition offsets (col : list cell) : list (option string) :=
  flat_map (fun c => match c with
                     | Some s => match in_column col s with
                                 | Stamp _ => [offset_of s]
                                 | NaT => []
                                 | Invalid => []
                                 end
                     | None => []
                     end) col.

Definition same_offset (a b : option string) : bool :=
  match a, b with
  | None, None => true
  | Some x, Some y => String.eqb x y
  | _, _ => false
  end.

(** Values that convert but do not all carry the same UTC offset give an
    object column. *)
Definition kind_of (col : list cell) : kind :=
  match offsets col with
  | [] => datetimelike
  | o :: os => if forallb (same_offset o) os then datetimelike else object_column
  end.

(** [calplot.calplot] lays out whole years and fails on a year that the
    nanosecond timestamps do not cover entirely: 1677 and 2262. *)
Definition calplot_raises (events : list (timestamp * Z)) : option string :=
  if existsb (fun e => (fst e <? days_from_civil 1678 1 1 * NS_PER_DAY)
                       || (days_from_civil 2262 1 1 * NS_PER_DAY <=? fst e)) events
  then Some "Out of bounds nanosecond timestamp"%string
  else None.

End Iso.

(** Strictly descending lists of dates. *)
Definition descending : list date -> Prop := StronglySorted (fun a b => b < a).

(** ** Vocabulary of the statements about daily counts *)

(** Number of records of a sequence of dates that fall on day [d]. *)
Definition occurrences (d : date) (dates : list date) : Z :=
  Z.of_nat (count_occ Z.eq_dec dates d).

(** Sum of all values of a count series. *)
Definition total (counts : list (date * Z)) : Z :=
  fold_right Z.add 0 (map snd counts).

(** A series ordered by strictly ascending index. *)
Definition ascending_index : list (date * Z) -> Prop :=
  StronglySorted (fun a b => fst a < fst b).

(** The count a series holds for day [d], if it has an entry for it. *)
Fixpoint count_on (d : date) (counts : list (date * Z)) : option Z :=
  match counts with
  | [] => None
  | (k, c) :: counts' => if k =? d then Some c else count_on d counts'
  end.

(** ** Vocabulary of the statements about the resolving and parsing stage *)

(** The column a function goes on with after lines 33-51 (107-125): the
    outcome of the selection, unless it is an early return or a name that
    is not truthy (lines 49 and 123). *)
Definition resolved (selection : st_message + string) : option string :=
  match selection with
  | inl _ => None
  | inr name => if truthy name then Some name else None
  end.

(** The calendar date of one record, when the value of its column [name]
    converts to a timestamp as part of that column. *)
Definition record_date (to_datetime1 : list cell -> string -> converted)
    (df : DataFrame) (name : string) (record : list cell) : option date :=
  match convert_cell to_datetime1 (getitem df name)
          (nth (get_loc name (columns df)) record None) with
  | Stamp t => Some (dt_date t)
  | NaT => None
  | Invalid => None
  end.

(** The dates of the records whose timestamp parses, one per such record,
    in the order of the records. *)
Definition parsed_dates (to_datetime1 : list cell -> string -> converted)
    (df : DataFrame) (name : string) : list date :=
  flat_map (fun record =>
              match record_date to_datetime1 df name record with
              | Some d => [d]
              | None => []
              end) (rows df).

(** The record store is missing or empty: no file, a file of size 0, a
    read that reports the file as not found or as holding no data, or a
    frame with no row or no column. *)
Definition unavailable (file : csv_file) : bool :=
  match file with
  | Absent => true
  | OnDisk size read_csv =>
      (size =? 0)
      || match read_csv with
         | inl (FileNotFoundError _) => true
         | inl (EmptyDataError _) => true
         | inl (OtherException _) => false
         | inr df => empty df
         end
  end.

(** The parsed calendar dates of an input: those of the resolved column of
    the frame read, none when there is no frame or no resolved column. *)
Definition input_dates (to_datetime1 : list cell -> string -> converted)
    (to_datetime_kind : list cell -> kind) (file : csv_file) : list date :=
  match file with
  | Absent => []
  | OnDisk _ (inl _) => []
  | OnDisk _ (inr df) =>
      match resolved (streak_timestamp_col to_datetime1 to_datetime_kind df) with
      | Some name => parsed_dates to_datetime1 df name
      | None => []
      end
  end.

(** Lines 141-161 on the dates of the rows that are left: no figure without
    events, else the figure, unless [calplot.calplot] raises. *)
Definition figure_of_dates (calplot_raises : list (timestamp * Z) -> option string)
    (dates : list date) : result (option figure) :=
  match events_of (daily_counts dates) with
  | [] => value None
  | events =>
      match calplot_raises events with
      | Some text => raised (CalplotError text)
      | None => value (Some (calplot events))
      end
  end.

(** The selection policy of the timestamp column, for a selection function
    [select] (section 4.1, in this order): "timestamp"; else "Date and Time";
    else the first column when there is one and [pd.to_datetime] with
    [errors='raise'] accepts it; failure exactly when there is no column or
    that conversion raises. *)
Definition selection_policy (to_datetime1 : list cell -> string -> converted)
    (to_datetime_kind : list cell -> kind)
    (select : DataFrame -> st_message + string) (df : DataFrame) : Prop :=
  (has_column "timestamp" df = true ->
   resolved (select df) = Some "timestamp"%string)
  /\ (has_column "timestamp" df = false ->
      has_column "Date and Time" df = true ->
      resolved (select df) = Some "Date and Time"%string)
  /\ (has_column "timestamp" df = false ->
      has_column "Date and Time" df = false ->
      forall first others, columns df = first :: others ->
        (to_datetime_raise to_datetime1 to_datetime_kind (iloc_col 0 df) <> None <->
         resolved (select df) = Some first))
  /\ (resolved (select df) = None <->
      has_column "timestamp" df = false
      /\ has_column "Date and Time" df = false
      /\ (columns df = []
          \/ to_datetime_raise to_datetime1 to_datetime_kind (iloc_col 0 df) = None)).

(** ** Sample frames and files (section 8 of the specification) *)

Module Sample.

(** Scenario 1: records on three consecutive days under "timestamp". *)
Definition three_days : DataFrame :=
mkDataFrame ["timestamp"; "mood"; "reason"]%string
  [ [Some "2024-01-01 09:00:00"; Some "Happy"; Some "new year"];
    [Some "2024-01-02 09:30:00"; Some "Neutral"; Some "work"];
    [Some "2024-01-03 22:10:00"; Some "Sad"; Some "rain"] ]%string.

(** Scenario 2: no record on 2024-01-02. *)
Definition gap_day : DataFrame :=
mkDataFrame ["timestamp"; "mood"; "reason"]%string
  [ [Some "2024-01-01 09:00:00"; Some "Happy"; Some "new year"];
    [Some "2024-01-03 22:10:00"; Some "Sad"; Some "rain"] ]%string.

(** Scenario 4: the legacy column name, two records on one day. *)
Definition legacy : DataFrame :=
mkDataFrame ["Date and Time"; "mood"; "reason"]%string
  [ [Some "2024-01-03 08:15:00"; Some "Happy"; Some "sun"];
    [Some "2024-01-03 21:40:00"; Some "Anxious"; Some "deadline"] ]%string.

(** Scenario 5: one row that does not parse and one valid row. *)
Definition one_bad_row : DataFrame :=
mkDataFrame ["timestamp"; "mood"; "reason"]%string
  [ [Some "last tuesday"; Some "Angry"; Some "traffic"];
    [Some "2024-01-03 08:15:00"; Some "Happy"; Some "sun"] ]%string.

(** A frame whose first column is the only candidate, with a missing value. *)
Definition first_column : DataFrame :=
mkDataFrame ["when"; "mood"]%string
  [ [Some "2024-01-02"; Some "Happy"];
    [None; Some "Sad"];
    [Some "2024-01-03"; Some "Neutral"] ]%string.

(** The same, with a value that cannot be converted. *)
Definition first_column_bad : DataFrame :=
mkDataFrame ["when"; "mood"]%string
  [ [Some "2024-01-02"; Some "Happy"];
    [Some "soon"; Some "Sad"] ]%string.

(** Two records with different UTC offsets and one that does not parse. *)
Definition mixed_offsets : DataFrame :=
  mkDataFrame ["timestamp"; "mood"; "reason"]%string
    [ [Some "2024-01-02 09:00:00+01:00"; Some "Happy"; Some "sun"];
      [Some "2024-01-03 09:00:00+02:00"; Some "Sad"; Some "rain"];
      [Some "last tuesday"; Some "Angry"; Some "traffic"] ]%string.

(** A record of 2024-01-03 and one of the year 1677. *)
Definition far_past : DataFrame :=
  mkDataFrame ["timestamp"; "mood"; "reason"]%string
    [ [Some "2024-01-03 09:00:00"; Some "Happy"; Some "sun"];
      [Some "1677-10-01 09:00:00"; Some "Sad"; Some "rain"] ]%string.

Definition jan_3 : date := Iso.ordinal 2024 1 3.

Definition on_disk (df : DataFrame) : csv_file := OnDisk 180 (inr df).

End Sample.

(** ** The rest of the page: header, submit handler and log view *)

From Stdlib Require Import DecimalString.

(** Calls to streamlit made by the page, in order. [st_shown] is a warning
    or an error of the two functions above; the label of [st.metric] is the
    constant of line 170. *)
Inductive st_call :=
| st_title (text : string)
| st_metric (value : string)
| st_subheader (text : string)
| st_pyplot (fig : figure)
| st_info (text : string)
| st_success (text : string)
| st_balloons
| st_rerun
| st_dataframe (df : DataFrame)
| st_shown (m : st_message).

(** [str(n)] of a Python integer. *)
Definition str (n : Z) : string := NilZero.string_of_int (Z.to_int n).

(** The f-string of line 170. *)
Definition streak_value (current_streak_value : Z) : string :=
  (str current_streak_value ++ " Day"
   ++ (if negb (Z.eqb current_streak_value 1) then "s" else ""))%string.

(** Lines 164-179, run on every load of the page: the calls made, and the
    exception that ends the script if [calculate_streak] (line 169) or
    [create_activity_heatmap] (line 175) raises. A figure is truthy. *)
Definition page_header (to_datetime1 : list cell -> string -> converted)
    (to_datetime_kind : list cell -> kind)
    (calplot_raises : list (timestamp * Z) -> option string)
    (file : csv_file) (today : date) : list st_call * option uncaught :=
  let (streak_messages, streak) :=
    calculate_streak to_datetime1 to_datetime_kind file today in
  match streak with
  | raised e => ([st_title "Log Your Mood"] ++ map st_shown streak_messages, Some e)
  | value current_streak_value =>
      let (heatmap_messages, heatmap) :=
        create_activity_heatmap to_datetime1 to_datetime_kind calplot_raises file in
      let calls :=
        [st_title "Log Your Mood"]
        ++ map st_shown streak_messages
        ++ [st_metric (streak_value current_streak_value);
            st_subheader "Your Mood Log Activity"]
        ++ map st_shown heatmap_messages in
      match heatmap with
      | raised e => (calls, Some e)
      | value heatmap_fig =>
          (calls
           ++ [match heatmap_fig with
               | Some fig => st_pyplot fig
               | None => st_info "Log some moods to see your activity heatmap!"
               end],
           None)
      end
  end.

(** *** The submit handler (lines 186-208) *)

(** The [data] directory as the handler sees it: absent, or present with
    the text of [mood_data.csv] when that file exists. *)
Inductive data_dir :=
| NoDir
| Dir (mood_data : option string).

(** The entry of lines 188-192; [timestamp] is [datetime.now()]. *)
Record entry := mkEntry {
  entry_timestamp : timestamp;
  entry_mood : string;
  entry_reason : string
}.

(** The text of the log, empty when there is no file. *)
Definition log_text (fs : data_dir) : string :=
  match fs with
  | NoDir => ""
  | Dir None => ""
  | Dir (Some text) => text
  end.

Section Submit.

(** [DataFrame([new_entry]).to_csv(..., header=h, index=False)]: the text
    written for one entry, with or without the header line. *)
Variable to_csv : bool -> entry -> string.

(** Lines 186-208, after the button is pressed. *)
Definition submit (mood reason : string) (now : timestamp) (fs : data_dir)
  : data_dir * list st_call :=
  if truthy mood && truthy reason then
    let new_entry := mkEntry now mood reason in
    (* lines 196-198: os.makedirs when the directory is missing *)
    let mood_data := match fs with
                     | NoDir => None
                     | Dir mood_data => mood_data
                     end in
    (* line 201 *)
    let header_needed := match mood_data with
                         | None => true
                         | Some text => (String.length text =? 0)%nat
                         end in
    (* line 203: mode='a' *)
    (Dir (Some (log_text fs ++ to_csv header_needed new_entry)%string),
     [st_success "Mood logged successfully!"; st_balloons; st_rerun])
  else
    (fs, [st_shown (st_warning "Please select a mood and provide a reason.")]).

(** A sequence of presses of the button, oldest first. *)
Fixpoint submits (presses : list (string * string * timestamp)) (fs : data_dir)
  : data_dir :=
  match presses with
  | [] => fs
  | (mood, reason, now) :: presses' => submits presses' (fst (submit mood reason now fs))
  end.

(** The text a sequence of accepted entries leaves in a fresh log. *)
Fixpoint fresh_log (header : bool) (entries : list entry) : string :=
  match entries with
  | [] => ""
  | e :: entries' => (to_csv header e ++ fresh_log false entries')%string
  end.

End Submit.

(** *** The log view (lines 210-239) *)

(** [df.fillna("N/A")] on one cell. *)
Definition fillna_cell (c : cell) : cell :=
  match c with
  | None => Some "N/A"%string
  | Some s => Some s
  end.

Section View.

Variable to_datetime1 : list cell -> string -> converted.
Variable to_datetime_kind : list cell -> kind.

(** [Timestamp.strftime('%Y-%m-%d %H:%M:%S')] *)
Variable strftime : timestamp -> string.

(** Lines 220-226: the column to normalise; no conversion is attempted. *)
Definition timestamp_col_display (df_log : DataFrame) : option string :=
  if has_column "timestamp" df_log then Some "timestamp"%string
  else if has_column "Date and Time" df_log then Some "Date and Time"%string
  else if (0 <? List.length (columns df_log))%nat
       then Some (nth 0 (columns df_log) ""%string)
       else None.

(** The right-hand side of line 231: [to_datetime(errors='coerce')] then
    [.dt.strftime], NaT giving a missing value; [None] when it raises
    ([pd.to_datetime] itself, or [.dt] on an object column). *)
Definition normalised (col : list cell) : option (list cell) :=
  match to_datetime_coerce to_datetime1 to_datetime_kind col with
  | inr (datetime64 values) => Some (map (option_map strftime) values)
  | inr (object_dtype _) => None
  | inl _ => None
  end.

(** One row of the frame handed to [st.dataframe]: the cells of the record
    under each column, the one at position [i] replaced by [c] when the
    column was rewritten by line 231, missing values filled by line 235. *)
Definition display_row (width : nat) (rewritten : option (nat * cell))
    (record : list cell) : list cell :=
  map (fun j =>
         fillna_cell
           match rewritten with
           | Some (i, c) => if (j =? i)%nat then c else nth j record None
           | None => nth j record None
           end)
      (seq 0 width).

(** Lines 228-235. A name that is not truthy skips line 231; an exception
    in line 231 is passed over (lines 232-233) and leaves the column as it
    is. *)
Definition df_display (df_log : DataFrame) : DataFrame :=
  let width := List.length (columns df_log) in
  let new_column :=
    match timestamp_col_display df_log with
    | Some name =>
        if truthy name
        then option_map (pair (get_loc name (columns df_log)))
               (normalised (getitem df_log name))
        else None
    | None => None
    end in
  mkDataFrame (columns df_log)
    match new_column with
    | Some (i, col) =>
        map (fun rc => display_row width (Some (i, snd rc)) (fst rc))
          (combine (rows df_log) col)
    | None => map (display_row width None) (rows df_log)
    end.

(** Lines 210-239, after the button is pressed. *)
Definition view_mood_log (file : csv_file) : list st_call :=
  match file with
  | Absent =>
      [st_info "No mood log found or log is empty. Please log your mood first."]
  | OnDisk size read_csv =>
      if size =? 0
      then [st_info "No mood log found or log is empty. Please log your mood first."]
      else
        match read_csv with
        | inl (EmptyDataError _) => [st_info "Mood log is empty or corrupted."]
        | inl e =>
            [st_shown (st_error
               ("An error occurred while trying to display the mood log: "
                ++ exn_text e)%string)]
        | inr df_log =>
            if empty df_log then [st_info "Mood log is empty."]
            else [st_dataframe (df_display df_log)]
        end
  end.

End View.

(** ** Vocabulary and samples for the statements about the rest of the page *)

(** The events of a figure. *)
Definition events_of_figure (fig : figure) : list (timestamp * Z) :=
  match fig with
  | calplot events => events
  end.

(** Every cell of a frame holds a value. *)
Definition no_missing (df : DataFrame) : Prop :=
  Forall (Forall (fun c : cell => c <> None)) (rows df).

(** A sample rendering of one entry: seconds since 1970, mood and reason
    separated by commas, one line per entry. *)
Definition sample_to_csv (header : bool) (e : entry) : string :=
  let seconds := entry_timestamp e / 1000000000 in
  ((if header then "timestamp,mood,reason" ++ String "010" "" else "")
   ++ str seconds ++ "," ++ entry_mood e ++ ","
   ++ entry_reason e ++ String "010" "")%string.


(** The entries of the presses of the submit button that pass the test of
    line 187, oldest first. *)
Definition accepted (presses : list (string * string * timestamp)) : list entry :=
  flat_map (fun press =>
              match press with
              | (mood, reason, now) =>
                  if truthy mood && truthy reason
                  then [mkEntry now mood reason]
                  else []
              end) presses.

(** The frame with one more record at the end. *)
Definition with_record (df : DataFrame) (record : list cell) : DataFrame :=
  mkDataFrame (columns df) (rows df ++ [record]).


(** The call hands a table to [st.dataframe]. *)
Definition is_dataframe (call : st_call) : bool :=
  match call with
  | st_dataframe _ => true
  | _ => false
  end.

(** Scenario 1 with other moods and reasons. *)
Definition three_days_other_moods : DataFrame :=
  mkDataFrame ["timestamp"; "mood"; "reason"]%string
    [ [Some "2024-01-01 09:00:00"; Some "Sad"; None];
      [Some "2024-01-02 09:30:00"; Some "Angry"; Some "queue"];
      [Some "2024-01-03 22:10:00"; Some "Happy"; Some "sun"] ]%string.

(** * Properties *)

Example iso_epoch : Iso.to_datetime1 "1970-01-01" = Stamp 0.
Proof. reflexivity. Qed.

Example iso_ordinal_2024 : Iso.ordinal 2024 1 3 = 738888.
Proof. reflexivity. Qed.

(** ** Sorted lists without repetition are determined by their elements *)

Section StrictOrder.

Context {A : Type} (R : A -> A -> Prop).
Hypothesis R_irrefl : forall a, ~ R a a.
Hypothesis R_trans : forall a b c, R a b -> R b c -> R a c.

Lemma strict_sorted_head_tail (a : A) (l : list A) :
  StronglySorted R (a :: l) -> ~ In a l.
Proof.
  intros Hs Hin. inversion Hs as [|? ? _ Hall]; subst.
  rewrite Forall_forall in Hall. exact (R_irrefl a (Hall a Hin)).
Qed.

Lemma strict_sorted_ext (l1 l2 : list A) :
  StronglySorted R l1 -> StronglySorted R l2 ->
  (forall x, In x l1 <-> In x l2) -> l1 = l2.
Proof.
  revert l2. induction l1 as [|a1 t1 IH]; intros [|a2 t2] H1 H2 Hext.
  - reflexivity.
  - exfalso. apply (proj2 (Hext a2)). now left.
  - exfalso. apply (proj1 (Hext a1)). now left.
  - assert (Hhead : a1 = a2).
    { inversion H1 as [|? ? _ Hall1]; inversion H2 as [|? ? _ Hall2]; subst.
      rewrite Forall_forall in Hall1, Hall2.
      destruct (proj1 (Hext a1) (or_introl eq_refl)) as [E|Hin2]; [now symmetry|].
      destruct (proj2 (Hext a2) (or_introl eq_refl)) as [E|Hin1]; [assumption|].
      exfalso. apply (R_irrefl a1). eapply R_trans; eauto. }
    subst a2. f_equal. apply IH.
    + now inversion H1.
    + now inversion H2.
    + intro x. split; intro Hin.
      * destruct (proj1 (Hext x) (or_intror Hin)) as [E|Hin']; [|assumption].
        subst x. exfalso. exact (strict_sorted_head_tail _ _ H1 Hin).
      * destruct (proj2 (Hext x) (or_intror Hin)) as [E|Hin']; [|assumption].
        subst x. exfalso. exact (strict_sorted_head_tail _ _ H2 Hin).
Qed.

End StrictOrder.

Lemma descending_ext (l1 l2 : list date) :
  descending l1 -> descending l2 -> (forall x, In x l1 <-> In x l2) -> l1 = l2.
Proof. apply strict_sorted_ext; intros; lia. Qed.

(** ** [unique] and [sorted] *)

Lemma existsb_eqb_In (x : Z) (l : list Z) :
  existsb (Z.eqb x) l = true <-> In x l.
Proof.
  rewrite existsb_exists. split.
  - intros (y & Hin & E). apply Z.eqb_eq in E. now subst.
  - intro Hin. exists x. split; [assumption | apply Z.eqb_refl].
Qed.

Lemma unique_from_In (l seen : list Z) (x : Z) :
  In x (unique_from seen l) <-> In x l /\ ~ In x seen.
Proof.
  revert seen. induction l as [|y l IH]; intro seen; simpl.
  - tauto.
  - destruct (existsb (Z.eqb y) seen) eqn:E.
    + apply existsb_eqb_In in E. rewrite IH. split.
      * tauto.
      * intros [[->|Hin] Hn]; tauto.
    + assert (Hy : ~ In y seen).
      { intro Hin. apply existsb_eqb_In in Hin. congruence. }
      simpl. rewrite IH. simpl. split.
      * intros [->|[Hin Hn]]; [tauto|]. split; [tauto|]. intro; apply Hn; tauto.
      * intros [[->|Hin] Hn]; [tauto|].
        destruct (Z.eq_dec y x) as [->|Hne]; [tauto|]. right. split; [assumption|].
        intros [E'|Hs]; tauto.
Qed.

Lemma unique_from_NoDup (l seen : list Z) : NoDup (unique_from seen l).
Proof.
  revert seen. induction l as [|y l IH]; intro seen; simpl.
  - constructor.
  - destruct (existsb (Z.eqb y) seen); [apply IH|].
    constructor; [|apply IH].
    rewrite unique_from_In. simpl. tauto.
Qed.

Lemma unique_In (l : list Z) (x : Z) : In x (unique l) <-> In x l.
Proof. unfold unique. rewrite unique_from_In. simpl. tauto. Qed.

Lemma unique_NoDup (l : list Z) : NoDup (unique l).
Proof. apply unique_from_NoDup. Qed.

Lemma insert_desc_perm (x : Z) (l : list Z) : Permutation (insert_desc x l) (x :: l).
Proof.
  induction l as [|y l IH]; simpl.
  - reflexivity.
  - destruct (y <=? x); [reflexivity|].
    rewrite IH. apply perm_swap.
Qed.

Lemma sorted_reverse_perm (l : list Z) : Permutation (sorted_reverse l) l.
Proof.
  induction l as [|x l IH]; simpl.
  - reflexivity.
  - rewrite insert_desc_perm. now constructor.
Qed.

Lemma insert_desc_sorted (x : Z) (l : list Z) :
  ~ In x l -> descending l -> descending (insert_desc x l).
Proof.
  unfold descending. induction l as [|y l IH]; intros Hn Hs; simpl.
  - repeat constructor.
  - inversion Hs as [|? ? Hs' Hall]; subst.
    destruct (y <=? x) eqn:E.
    + apply Z.leb_le in E.
      assert (y <> x) by (intro; subst; apply Hn; now left).
      constructor; [assumption|].
      constructor; [lia|].
      rewrite Forall_forall in Hall |- *. intros z Hz. specialize (Hall z Hz). lia.
    + apply Z.leb_gt in E. constructor.
      * apply IH; [|assumption]. intro; apply Hn; now right.
      * rewrite Forall_forall in Hall |- *. intros z Hz.
        apply (Permutation_in _ (insert_desc_perm x l)) in Hz.
        destruct Hz as [<-|Hz]; [lia | now apply Hall].
Qed.

Lemma sorted_reverse_sorted (l : list Z) : NoDup l -> descending (sorted_reverse l).
Proof.
  induction 1 as [|x l Hn Hnd IH]; simpl.
  - constructor.
  - apply insert_desc_sorted; [|assumption].
    intro Hin. apply Hn. exact (Permutation_in _ (sorted_reverse_perm l) Hin).
Qed.

Lemma sorted_unique_In (l : list Z) (x : Z) :
  In x (sorted_reverse (unique l)) <-> In x l.
Proof.
  rewrite <- (unique_In l x). split; apply Permutation_in;
    [apply sorted_reverse_perm | symmetry; apply sorted_reverse_perm].
Qed.

Lemma sorted_unique_descending (l : list Z) : descending (sorted_reverse (unique l)).
Proof. apply sorted_reverse_sorted, unique_NoDup. Qed.

(** ** The specification's distinct descending dates *)

Lemma add_desc_In (x y : date) (l : list date) :
  In y (Spec.add_desc x l) <-> y = x \/ In y l.
Proof.
  induction l as [|z l IH]; simpl.
  - intuition.
  - destruct (z <? x); [simpl; intuition|].
    destruct (z =? x) eqn:E.
    + apply Z.eqb_eq in E. subst z. simpl. intuition.
    + simpl. rewrite IH. intuition.
Qed.

Lemma add_desc_sorted (x : date) (l : list date) :
  descending l -> descending (Spec.add_desc x l).
Proof.
  unfold descending. induction l as [|z l IH]; intro Hs; simpl.
  - repeat constructor.
  - inversion Hs as [|? ? Hs' Hall]; subst.
    destruct (z <? x) eqn:Elt.
    + apply Z.ltb_lt in Elt. constructor; [assumption|].
      constructor; [assumption|].
      rewrite Forall_forall in Hall |- *. intros w Hw. specialize (Hall w Hw). lia.
    + apply Z.ltb_ge in Elt. destruct (z =? x) eqn:Eeq; [assumption|].
      apply Z.eqb_neq in Eeq. constructor; [now apply IH|].
      rewrite Forall_forall in Hall |- *. intros w Hw.
      apply add_desc_In in Hw. destruct Hw as [->|Hw]; [lia | now apply Hall].
Qed.

Lemma distinct_desc_In (dates : list date) (x : date) :
  In x (Spec.distinct_desc dates) <-> In x dates.
Proof.
  induction dates as [|d dates IH]; simpl; [tauto|].
  rewrite add_desc_In, IH. intuition.
Qed.

Lemma distinct_desc_descending (dates : list date) :
  descending (Spec.distinct_desc dates).
Proof.
  induction dates as [|d dates IH]; simpl; [constructor|].
  now apply add_desc_sorted.
Qed.

Lemma unique_dates_distinct_desc (dates : list date) :
  sorted_reverse (unique dates) = Spec.distinct_desc dates.
Proof.
  apply descending_ext.
  - apply sorted_unique_descending.
  - apply distinct_desc_descending.
  - intro x. now rewrite sorted_unique_In, distinct_desc_In.
Qed.

(** ** The loop of lines 76-81 is the specification's walk *)

Lemma streak_loop_walk (remaining seen : list date) (current_streak last : Z) :
  streak_loop (seq (List.length seen) (List.length remaining)) (seen ++ remaining)
    current_streak last
  = current_streak + Spec.walk last remaining.
Proof.
  revert seen current_streak last.
  induction remaining as [|d remaining IH]; intros seen c last;
    cbn [streak_loop Spec.walk seq List.length].
  - lia.
  - rewrite nth_middle.
    replace (d =? last - 1) with (last - d =? 1)
      by (destruct (Z.eqb_spec (last - d) 1), (Z.eqb_spec d (last - 1)); lia).
    destruct (last - d =? 1); [|lia].
    specialize (IH (seen ++ [d]) (c + 1) d).
    rewrite <- app_assoc, length_app in IH. cbn [List.length app] in IH.
    rewrite Nat.add_1_r in IH. rewrite IH. lia.
Qed.

Lemma streak_of_unique_dates_walk (first : date) (remaining : list date) (today : date) :
  streak_of_unique_dates (first :: remaining) today
  = if (first =? today) || (first =? today - 1)
    then 1 + Spec.walk first remaining else 0.
Proof.
  unfold streak_of_unique_dates.
  destruct ((first =? today) || (first =? today - 1)); [|reflexivity].
  simpl List.length. rewrite Nat.sub_succ, Nat.sub_0_r.
  exact (streak_loop_walk remaining [first] 1 first).
Qed.

(** C1. For every sequence of parsed dates and every [today], the streak of
    lines 63-83 is the streak of the specified algorithm: the list the code
    walks holds the distinct dates in strictly descending order, the result
    is 0 unless the most recent date is today or the day before, and
    otherwise 1 plus the number of leading dates of the remainder that are
    each one day before their predecessor. *)
Theorem streak_follows_specified_algorithm (dates : list date) (today : date) :
  descending (sorted_reverse (unique dates))
  /\ (forall d, In d (sorted_reverse (unique dates)) <-> In d dates)
  /\ sorted_reverse (unique dates) = Spec.distinct_desc dates
  /\ streak_of_dates dates today = Spec.currentStreak dates today.
Proof.
  split; [apply sorted_unique_descending|].
  split; [intro d; apply sorted_unique_In|].
  split; [apply unique_dates_distinct_desc|].
  unfold streak_of_dates, Spec.currentStreak.
  rewrite <- unique_dates_distinct_desc.
  destruct dates as [|d dates]; [reflexivity|].
  destruct (sorted_reverse (unique (d :: dates))) as [|first remaining]; [reflexivity|].
  apply streak_of_unique_dates_walk.
Qed.

(** ** The streak in terms of which days are present *)

Lemma descending_inv (c : date) (l : list date) :
  descending (c :: l) -> descending l /\ forall d, In d l -> d < c.
Proof.
  intro Hs. inversion Hs as [|? ? Hs' Hall]; subst.
  split; [assumption | now apply Forall_forall].
Qed.

(** On a strictly descending list, the walk from [cursor] counts [n] steps
    exactly when the [n] days before [cursor] are all present and the day
    before them is not. *)
Lemma walk_run (remaining : list date) (cursor n : Z) :
  descending (cursor :: remaining) ->
  0 <= n ->
  (forall d, cursor - n <= d <= cursor -> In d (cursor :: remaining)) ->
  ~ In (cursor - n - 1) (cursor :: remaining) ->
  Spec.walk cursor remaining = n.
Proof.
  revert cursor n.
  induction remaining as [|x remaining IH]; intros c n Hs Hn Hrun Hgap.
  - cbn [Spec.walk]. destruct (Z.eq_dec n 0) as [->|Hpos]; [reflexivity|].
    destruct (Hrun (c - 1)) as [E|[]]; lia.
  - apply descending_inv in Hs. destruct Hs as [Hs Hlt].
    pose proof (Hlt x (or_introl eq_refl)) as Hx.
    pose proof (descending_inv _ _ Hs) as [_ Hlt'].
    cbn [Spec.walk]. destruct (Z.eqb_spec x (c - 1)) as [E|Hne].
    + subst x. rewrite (IH (c - 1) (n - 1)); [lia | assumption | | |].
      * destruct (Z.eq_dec n 0) as [->|Hpos]; [|lia].
        exfalso. apply Hgap. right. left. lia.
      * intros d Hd. destruct (Hrun d) as [E|Hin]; [lia | lia | assumption].
      * intro Hin. apply Hgap. right.
        replace (c - n - 1) with (c - 1 - (n - 1) - 1) by lia. exact Hin.
    + destruct (Z.eq_dec n 0) as [->|Hpos]; [reflexivity|].
      exfalso. destruct (Hrun (c - 1)) as [E|[E|Hin]]; try lia.
      specialize (Hlt' _ Hin). lia.
Qed.

Lemma unique_dates_head (dates : list date) (m : date) :
  In m dates -> (forall d, In d dates -> d <= m) ->
  exists remaining, sorted_reverse (unique dates) = m :: remaining.
Proof.
  intros Hm Hmax.
  pose proof (sorted_unique_descending dates) as Hs.
  pose proof (sorted_unique_In dates) as Hin.
  destruct (sorted_reverse (unique dates)) as [|h remaining].
  - exfalso. exact (proj2 (Hin m) Hm).
  - exists remaining. f_equal.
    apply descending_inv in Hs. destruct Hs as [_ Hlt].
    pose proof (Hmax h (proj1 (Hin h) (or_introl eq_refl))).
    destruct (proj2 (Hin m) Hm) as [E|Hr]; [assumption|].
    specialize (Hlt _ Hr). lia.
Qed.

Lemma dates_have_maximum (dates : list date) :
  dates <> [] ->
  exists m, In m dates /\ forall d, In d dates -> d <= m.
Proof.
  intro Hne.
  pose proof (sorted_unique_descending dates) as Hs.
  pose proof (sorted_unique_In dates) as Hin.
  destruct (sorted_reverse (unique dates)) as [|h remaining].
  - destruct dates as [|d dates]; [congruence|].
    exfalso. exact (proj2 (Hin d) (or_introl eq_refl)).
  - exists h. split; [apply Hin; now left|].
    apply descending_inv in Hs. destruct Hs as [_ Hlt].
    intros d Hd. destruct (proj2 (Hin d) Hd) as [E|Hr]; [lia|].
    specialize (Hlt _ Hr). lia.
Qed.

(** The streak is [1 + n] when the most recent date [m] is today or the day
    before, the days [m - n .. m] are present and day [m - n - 1] is not. *)
Lemma streak_of_dates_run (dates : list date) (today m n : Z) :
  In m dates -> (forall d, In d dates -> d <= m) ->
  m = today \/ m = today - 1 ->
  0 <= n ->
  (forall d, m - n <= d <= m -> In d dates) ->
  ~ In (m - n - 1) dates ->
  streak_of_dates dates today = 1 + n.
Proof.
  intros Hm Hmax Hrecent Hn Hrun Hgap. unfold streak_of_dates.
  destruct (unique_dates_head dates m Hm Hmax) as [remaining E].
  pose proof (sorted_unique_descending dates) as Hs.
  pose proof (sorted_unique_In dates) as Hin.
  rewrite E in *. rewrite streak_of_unique_dates_walk.
  replace ((m =? today) || (m =? today - 1)) with true
    by (symmetry; apply orb_true_iff; rewrite !Z.eqb_eq; exact Hrecent).
  f_equal. apply walk_run; [assumption | assumption | |].
  - intros d Hd. apply Hin. now apply Hrun.
  - intro H. apply Hgap. now apply Hin.
Qed.

(** The streak is 0 when the most recent date is neither today nor the day
    before. *)
Lemma streak_of_dates_broken (dates : list date) (today m : Z) :
  In m dates -> (forall d, In d dates -> d <= m) ->
  m <> today -> m <> today - 1 ->
  streak_of_dates dates today = 0.
Proof.
  intros Hm Hmax H1 H2. unfold streak_of_dates.
  destruct (unique_dates_head dates m Hm Hmax) as [remaining E].
  rewrite E, streak_of_unique_dates_walk.
  destruct (Z.eqb_spec m today); [contradiction|].
  destruct (Z.eqb_spec m (today - 1)); [contradiction|]. reflexivity.
Qed.

(** C2. Let the days [e .. last] be an unbroken run of days present in [D]
    that ends today or yesterday and cannot be extended downwards (day
    [e - 1] is absent). Inserting any dates older than [e - 1] anywhere in
    [D] leaves the streak unchanged. In particular, entries for today and
    yesterday together with any dates older than the day before yesterday
    give streak 2. *)
Theorem streak_ignores_dates_beyond_gap
    (D extra D' : list date) (today last e : date) :
  ((last = today \/ last = today - 1) ->
   e <= last ->
   (forall d, e <= d <= last -> In d D) ->
   ~ In (e - 1) D ->
   (forall x, In x extra -> x < e - 1) ->
   Permutation D' (D ++ extra) ->
   streak_of_dates D' today = streak_of_dates D today)
  /\
  ((forall x, In x extra -> x < today - 2) ->
   Permutation D' (today :: today - 1 :: extra) ->
   streak_of_dates D' today = 2).
Proof.
  split.
  - intros Hlast Hle Hrun Hgap Hold Hperm.
    assert (HinD' : forall x, In x D' <-> In x D \/ In x extra).
    { intro x. rewrite <- in_app_iff. split; apply Permutation_in;
        [assumption | now symmetry]. }
    assert (HlastD : In last D) by (apply Hrun; lia).
    destruct (dates_have_maximum D) as (m & Hm & Hmax).
    { intro E. rewrite E in HlastD. contradiction. }
    pose proof (Hmax last HlastD) as Hlm.
    assert (Hm' : In m D') by (apply HinD'; now left).
    assert (Hmax' : forall d, In d D' -> d <= m).
    { intros d Hd. apply HinD' in Hd. destruct Hd as [Hd|Hd]; [now apply Hmax|].
      specialize (Hold d Hd). lia. }
    destruct (Z_le_gt_dec m today) as [Hmt|Hmt].
    + assert (Hrecent : m = today \/ m = today - 1) by lia.
      assert (Hrun_m : forall d, m - (m - e) <= d <= m -> In d D).
      { intros d Hd. destruct (Z_le_gt_dec d last); [apply Hrun; lia|].
        replace d with m by lia. assumption. }
      rewrite (streak_of_dates_run D today m (m - e));
        try assumption; try lia.
      * apply (streak_of_dates_run D' today m (m - e)); try assumption; try lia.
        -- intros d Hd. apply HinD'. left. now apply Hrun_m.
        -- replace (m - (m - e) - 1) with (e - 1) by lia.
           intro H. apply HinD' in H. destruct H as [H|H]; [contradiction|].
           specialize (Hold _ H). lia.
      * replace (m - (m - e) - 1) with (e - 1) by lia. assumption.
    + rewrite (streak_of_dates_broken D today m); try assumption; try lia.
      apply (streak_of_dates_broken D' today m); try assumption; lia.
  - intros Hold Hperm.
    assert (HinD' : forall x, In x D' <-> x = today \/ x = today - 1 \/ In x extra).
    { intro x. split.
      - intro H. apply (Permutation_in _ Hperm) in H. simpl in H. intuition.
      - intro H. apply (Permutation_in _ (Permutation_sym Hperm)). simpl. intuition. }
    apply (streak_of_dates_run D' today today 1).
    + apply HinD'. now left.
    + intros d Hd. apply HinD' in Hd. destruct Hd as [->|[->|Hd]]; try lia.
      specialize (Hold _ Hd). lia.
    + now left.
    + lia.
    + intros d Hd. apply HinD'.
      destruct (Z.eq_dec d today); [now left | right; left; lia].
    + intro H. apply HinD' in H. destruct H as [H|[H|H]]; try lia.
      specialize (Hold _ H). lia.
Qed.

(** ** [value_counts] and [sort_index] *)

Lemma bump_count_on (d k : date) (table : list (date * Z)) :
  count_on k (bump d table)
  = if k =? d
    then Some (match count_on d table with Some c => c + 1 | None => 1 end)
    else count_on k table.
Proof.
  induction table as [|[k' c'] table IH]; cbn [bump count_on].
  - rewrite (Z.eqb_sym d k). now destruct (k =? d).
  - destruct (Z.eqb_spec k' d) as [E|Hne]; cbn [count_on].
    + subst k'. destruct (Z.eqb_spec d k) as [E|Hkd].
      * subst k. now rewrite Z.eqb_refl.
      * destruct (Z.eqb_spec k d); [congruence | reflexivity].
    + rewrite IH. destruct (Z.eqb_spec k' k) as [E|Hk'].
      * subst k'. destruct (Z.eqb_spec k d); [contradiction | reflexivity].
      * reflexivity.
Qed.

Lemma bump_keys (d k : date) (table : list (date * Z)) :
  In k (map fst (bump d table)) <-> k = d \/ In k (map fst table).
Proof.
  induction table as [|[k' c'] table IH]; cbn [bump map fst In].
  - intuition.
  - destruct (Z.eqb_spec k' d) as [->|Hne]; cbn [map fst In].
    + intuition.
    + rewrite IH. intuition.
Qed.

Lemma bump_NoDup (d : date) (table : list (date * Z)) :
  NoDup (map fst table) -> NoDup (map fst (bump d table)).
Proof.
  induction table as [|[k' c'] table IH]; cbn [bump map fst]; intro Hnd.
  - repeat constructor. intros [].
  - inversion Hnd as [|? ? Hnotin Hnd']; subst.
    destruct (Z.eqb_spec k' d) as [->|Hne]; cbn [map fst].
    + now constructor.
    + constructor; [|now apply IH].
      rewrite bump_keys. intuition.
Qed.

Lemma bump_total (d : date) (table : list (date * Z)) :
  total (bump d table) = total table + 1.
Proof.
  unfold total. induction table as [|[k' c'] table IH]; cbn [bump map snd fold_right].
  - lia.
  - destruct (k' =? d); cbn [map snd fold_right]; lia.
Qed.

Lemma count_table_fold_right (l : list date) :
  count_table l = fold_right bump [] (rev l).
Proof. unfold count_table. now rewrite <- fold_left_rev_right. Qed.

Lemma occurrences_cons (d k : date) (l : list date) :
  occurrences k (d :: l) = occurrences k l + (if k =? d then 1 else 0).
Proof.
  unfold occurrences. cbn [count_occ].
  destruct (Z.eq_dec d k) as [->|Hne].
  - rewrite Z.eqb_refl. lia.
  - destruct (Z.eqb_spec k d); [congruence | lia].
Qed.

Lemma occurrences_nonneg (k : date) (l : list date) : 0 <= occurrences k l.
Proof. unfold occurrences. lia. Qed.

Lemma occurrences_pos (k : date) (l : list date) : 0 < occurrences k l <-> In k l.
Proof.
  unfold occurrences. rewrite (count_occ_In Z.eq_dec). lia.
Qed.

Lemma occurrences_perm (k : date) (l l' : list date) :
  Permutation l l' -> occurrences k l = occurrences k l'.
Proof.
  intro Hp. unfold occurrences. f_equal.
  revert k. now apply (Permutation_count_occ Z.eq_dec).
Qed.

Lemma fold_bump_count_on (l : list date) (k : date) :
  count_on k (fold_right bump [] l)
  = if occurrences k l =? 0 then None else Some (occurrences k l).
Proof.
  induction l as [|d l IH]; cbn [fold_right].
  - reflexivity.
  - rewrite bump_count_on, occurrences_cons.
    pose proof (occurrences_nonneg k l) as Hk.
    destruct (Z.eqb_spec k d) as [->|Hne].
    + rewrite IH. destruct (Z.eqb_spec (occurrences d l) 0) as [E|E].
      * rewrite E. reflexivity.
      * destruct (Z.eqb_spec (occurrences d l + 1) 0); [lia | reflexivity].
    + rewrite IH, Z.add_0_r. reflexivity.
Qed.

Lemma fold_bump_NoDup (l : list date) : NoDup (map fst (fold_right bump [] l)).
Proof.
  induction l as [|d l IH]; cbn [fold_right]; [constructor | now apply bump_NoDup].
Qed.

Lemma fold_bump_total (l : list date) :
  total (fold_right bump [] l) = Z.of_nat (List.length l).
Proof.
  induction l as [|d l IH]; cbn [fold_right List.length].
  - reflexivity.
  - rewrite bump_total, IH. lia.
Qed.

Lemma count_table_count_on (l : list date) (k : date) :
  count_on k (count_table l)
  = if occurrences k l =? 0 then None else Some (occurrences k l).
Proof.
  rewrite count_table_fold_right, fold_bump_count_on.
  now rewrite (occurrences_perm k (rev l) l) by (symmetry; apply Permutation_rev).
Qed.

Lemma count_table_NoDup (l : list date) : NoDup (map fst (count_table l)).
Proof. rewrite count_table_fold_right. apply fold_bump_NoDup. Qed.

Lemma count_table_total (l : list date) :
  total (count_table l) = Z.of_nat (List.length l).
Proof. now rewrite count_table_fold_right, fold_bump_total, length_rev. Qed.

(** With distinct keys, membership is lookup. *)
Lemma count_on_In (table : list (date * Z)) (k c : Z) :
  NoDup (map fst table) ->
  (In (k, c) table <-> count_on k table = Some c).
Proof.
  induction table as [|[k' c'] table IH]; cbn [map fst count_on In]; intro Hnd.
  - split; [intros [] | discriminate].
  - inversion Hnd as [|? ? Hnotin Hnd']; subst.
    destruct (Z.eqb_spec k' k) as [->|Hne].
    + split.
      * intros [E|Hin]; [congruence|].
        exfalso. apply Hnotin. apply in_map_iff. now exists (k, c).
      * intros [= ->]. now left.
    + rewrite <- (IH Hnd'). split; [intros [E|Hin]; [congruence | assumption] | now right].
Qed.

Lemma insert_by_count_perm (e : Z * Z) (l : list (Z * Z)) :
  Permutation (insert_by_count e l) (e :: l).
Proof.
  induction l as [|e' l IH]; cbn [insert_by_count].
  - reflexivity.
  - destruct (snd e' <=? snd e); [reflexivity|].
    rewrite IH. apply perm_swap.
Qed.

Lemma sort_values_desc_perm (l : list (date * Z)) :
  Permutation (sort_values_desc l) l.
Proof.
  induction l as [|e l IH]; cbn [sort_values_desc fold_right].
  - reflexivity.
  - rewrite insert_by_count_perm. now constructor.
Qed.

Lemma insert_by_index_perm (e : Z * Z) (l : list (Z * Z)) :
  Permutation (insert_by_index e l) (e :: l).
Proof.
  induction l as [|e' l IH]; cbn [insert_by_index].
  - reflexivity.
  - destruct (fst e <=? fst e'); [reflexivity|].
    rewrite IH. apply perm_swap.
Qed.

Lemma sort_index_perm (l : list (date * Z)) : Permutation (sort_index l) l.
Proof.
  induction l as [|e l IH]; cbn [sort_index fold_right].
  - reflexivity.
  - rewrite insert_by_index_perm. now constructor.
Qed.

Lemma insert_by_index_sorted (e : Z * Z) (l : list (Z * Z)) :
  ~ In (fst e) (map fst l) -> ascending_index l ->
  ascending_index (insert_by_index e l).
Proof.
  unfold ascending_index.
  induction l as [|e' l IH]; cbn [insert_by_index map In]; intros Hn Hs.
  - repeat constructor.
  - inversion Hs as [|? ? Hs' Hall]; subst.
    destruct (Z.leb_spec (fst e) (fst e')) as [Hle|Hgt].
    + constructor; [assumption|].
      constructor; [lia|].
      rewrite Forall_forall in Hall |- *. intros z Hz. specialize (Hall z Hz). lia.
    + constructor.
      * apply IH; [|assumption]. intro; apply Hn; now right.
      * rewrite Forall_forall in Hall |- *. intros z Hz.
        apply (Permutation_in _ (insert_by_index_perm e l)) in Hz.
        destruct Hz as [<-|Hz]; [lia | now apply Hall].
Qed.

Lemma sort_index_sorted (l : list (date * Z)) :
  NoDup (map fst l) -> ascending_index (sort_index l).
Proof.
  induction l as [|e l IH]; cbn [sort_index fold_right map]; intro Hnd.
  - constructor.
  - inversion Hnd as [|? ? Hnotin Hnd']; subst.
    apply insert_by_index_sorted; [|now apply IH].
    intro Hin. apply Hnotin.
    exact (Permutation_in _ (Permutation_map fst (sort_index_perm l)) Hin).
Qed.

Lemma ascending_index_ext (l1 l2 : list (date * Z)) :
  ascending_index l1 -> ascending_index l2 ->
  (forall x, In x l1 <-> In x l2) -> l1 = l2.
Proof. apply strict_sorted_ext; intros; lia. Qed.

Lemma total_perm (l l' : list (date * Z)) :
  Permutation l l' -> total l = total l'.
Proof.
  unfold total. induction 1; cbn [map fold_right]; lia.
Qed.

(** ** The daily count series *)

Lemma daily_counts_perm_table (dates : list date) :
  Permutation (daily_counts dates) (count_table dates).
Proof.
  unfold daily_counts, value_counts.
  rewrite sort_index_perm. apply sort_values_desc_perm.
Qed.

Lemma value_counts_NoDup (dates : list date) : NoDup (map fst (value_counts dates)).
Proof.
  apply (Permutation_NoDup
           (Permutation_map fst (Permutation_sym (sort_values_desc_perm _)))).
  apply count_table_NoDup.
Qed.

Lemma daily_counts_NoDup (dates : list date) : NoDup (map fst (daily_counts dates)).
Proof.
  apply (Permutation_NoDup
           (Permutation_map fst (Permutation_sym (daily_counts_perm_table dates)))).
  apply count_table_NoDup.
Qed.

Lemma daily_counts_ascending (dates : list date) : ascending_index (daily_counts dates).
Proof. apply sort_index_sorted, value_counts_NoDup. Qed.

(** The series holds, for each day with a record, the number of records of
    that day, and nothing else. *)
Lemma daily_counts_In (dates : list date) (d c : Z) :
  In (d, c) (daily_counts dates) <-> In d dates /\ c = occurrences d dates.
Proof.
  transitivity (In (d, c) (count_table dates)).
  - split; apply Permutation_in;
      [apply daily_counts_perm_table | symmetry; apply daily_counts_perm_table].
  - rewrite (count_on_In _ _ _ (count_table_NoDup dates)), count_table_count_on.
    rewrite <- occurrences_pos.
    pose proof (occurrences_nonneg d dates).
    destruct (Z.eqb_spec (occurrences d dates) 0) as [E|E].
    + split; [discriminate | lia].
    + split; [intros [= <-]; lia | intros [_ ->]; reflexivity].
Qed.

Lemma daily_counts_count_on (dates : list date) (d : date) :
  count_on d (daily_counts dates)
  = if occurrences d dates =? 0 then None else Some (occurrences d dates).
Proof.
  pose proof (daily_counts_NoDup dates) as Hnd.
  pose proof (occurrences_nonneg d dates) as Hge.
  destruct (Z.eqb_spec (occurrences d dates) 0) as [E|E].
  - destruct (count_on d (daily_counts dates)) as [c|] eqn:Ec; [|reflexivity].
    apply (count_on_In _ _ _ Hnd), daily_counts_In in Ec.
    destruct Ec as [Hin _]. apply occurrences_pos in Hin. lia.
  - apply (count_on_In _ _ _ Hnd), daily_counts_In.
    split; [apply occurrences_pos; lia | reflexivity].
Qed.

Lemma daily_counts_total (dates : list date) :
  total (daily_counts dates) = Z.of_nat (List.length dates).
Proof.
  rewrite (total_perm _ _ (daily_counts_perm_table dates)).
  apply count_table_total.
Qed.

(** The streak depends on which days are present only. *)
Lemma streak_of_dates_ext (D D' : list date) (today : date) :
  (forall d, In d D <-> In d D') ->
  streak_of_dates D today = streak_of_dates D' today.
Proof.
  intro Hext. unfold streak_of_dates. f_equal.
  apply descending_ext; try apply sorted_unique_descending.
  intro x. now rewrite !sorted_unique_In.
Qed.

(** C6. For every sequence [D] of parsed dates, the values of the daily
    count series sum to the length of [D]; every entry of the series has a
    count of at least 1 and is for a day that has a record in [D], its count
    being the number of records of that day. *)
Theorem daily_counts_sum_and_sparse (D : list date) :
  total (daily_counts D) = Z.of_nat (List.length D)
  /\ forall d c, In (d, c) (daily_counts D) ->
       1 <= c /\ In d D /\ c = occurrences d D.
Proof.
  split; [apply daily_counts_total|].
  intros d c Hin. apply daily_counts_In in Hin. destruct Hin as [Hd ->].
  pose proof (proj2 (occurrences_pos d D) Hd). repeat split; [lia | assumption].
Qed.

(** C7. The daily count series of a sequence of parsed dates and of any
    permutation of it are the same series, and the series is ordered by
    strictly ascending date. *)
Theorem daily_counts_order_independent (D D' : list date) :
  Permutation D D' ->
  daily_counts D = daily_counts D' /\ ascending_index (daily_counts D).
Proof.
  intro Hp. split; [|apply daily_counts_ascending].
  apply ascending_index_ext; try apply daily_counts_ascending.
  intros [d c]. rewrite !daily_counts_In, (occurrences_perm d D D' Hp).
  split; intros [Hin E]; (split; [|exact E]).
  - exact (Permutation_in _ Hp Hin).
  - exact (Permutation_in _ (Permutation_sym Hp) Hin).
Qed.

(** C5. A further record on a day that already has one, inserted anywhere,
    leaves the streak unchanged (the streak sees each calendar day once) and
    raises the daily count of that day by one (each record is counted). *)
Theorem duplicates_once_for_streak_each_for_counts
    (dates dates' : list date) (d today : date) :
  In d dates ->
  Permutation dates' (d :: dates) ->
  streak_of_dates dates' today = streak_of_dates dates today
  /\ streak_of_dates dates today = streak_of_dates (unique dates) today
  /\ count_on d (daily_counts dates) = Some (occurrences d dates)
  /\ count_on d (daily_counts dates') = Some (occurrences d dates + 1).
Proof.
  intros Hd Hp.
  pose proof (proj2 (occurrences_pos d dates) Hd) as Hpos.
  split; [|split; [|split]].
  - apply streak_of_dates_ext. intro x. split.
    + intro Hx. apply (Permutation_in _ Hp) in Hx. destruct Hx as [<-|Hx]; assumption.
    + intro Hx. apply (Permutation_in _ (Permutation_sym Hp)). now right.
  - apply streak_of_dates_ext. intro x. now rewrite unique_In.
  - rewrite daily_counts_count_on.
    destruct (Z.eqb_spec (occurrences d dates) 0); [lia | reflexivity].
  - rewrite daily_counts_count_on, (occurrences_perm d dates' (d :: dates) Hp).
    rewrite occurrences_cons, Z.eqb_refl.
    destruct (Z.eqb_spec (occurrences d dates + 1) 0); [lia | reflexivity].
Qed.

(** ** The resolving and parsing stage *)

Section Resolver.

Variable to_datetime1 : list cell -> string -> converted.
Variable to_datetime_kind : list cell -> kind.

(** The conversion with [errors='raise'] raises exactly when some value of
    the column cannot be converted, or the column as a whole cannot. *)
Lemma to_datetime_raise_None (col : list cell) :
  to_datetime_raise to_datetime1 to_datetime_kind col = None
  <-> (exists c, In c col /\ convert_cell to_datetime1 col c = Invalid)
      \/ exists text, to_datetime_kind col = conversion_error text.
Proof.
  unfold to_datetime_raise, assemble.
  destruct (existsb (fun c => is_invalid (convert_cell to_datetime1 col c)) col) eqn:E.
  - split; [|reflexivity]. intros _. left.
    apply existsb_exists in E. destruct E as (c & Hin & Hc). exists c.
    split; [assumption|]. now destruct (convert_cell to_datetime1 col c).
  - assert (Hno : ~ exists c, In c col /\ convert_cell to_datetime1 col c = Invalid).
    { intros (c & Hin & Hc).
      assert (Ht : existsb (fun c => is_invalid (convert_cell to_datetime1 col c)) col = true)
        by (apply existsb_exists; exists c; split; [assumption | now rewrite Hc]).
      congruence. }
    destruct (to_datetime_kind col) as [| |text].
    + split; [discriminate|]. intros [H|(text & H)]; [contradiction | discriminate].
    + split; [discriminate|]. intros [H|(text & H)]; [contradiction | discriminate].
    + split; [|reflexivity]. intros _. right. now exists text.
Qed.

Lemma dropna_dates (col : list cell) (i : nat) (records : list (list cell)) :
  map (fun r => dt_date (snd r))
    (dropna (combine records
               (map (fun c => match convert_cell to_datetime1 col c with
                              | Stamp t => Some t
                              | NaT => None
                              | Invalid => None
                              end)
                  (map (fun r => nth i r None) records))))
  = flat_map (fun record =>
                match convert_cell to_datetime1 col (nth i record None) with
                | Stamp t => [dt_date t]
                | NaT => []
                | Invalid => []
                end) records.
Proof.
  induction records as [|r records IH];
    cbn [map combine dropna flat_map]; [reflexivity|].
  destruct (convert_cell to_datetime1 col _);
    cbn [dropna map snd app]; now rewrite IH.
Qed.

Lemma parsed_dates_flat_map (df : DataFrame) (name : string) :
  parsed_dates to_datetime1 df name
  = flat_map (fun record =>
                match convert_cell to_datetime1 (getitem df name)
                        (nth (get_loc name (columns df)) record None) with
                | Stamp t => [dt_date t]
                | NaT => []
                | Invalid => []
                end) (rows df).
Proof.
  unfold parsed_dates, record_date. apply flat_map_ext. intro r.
  now destruct (convert_cell to_datetime1 _ _).
Qed.

(** The rows left by [dropna] carry the parsed dates. *)
Lemma kept_dates (df : DataFrame) (name : string) :
  map (fun r => dt_date (snd r))
    (dropna (combine (rows df) (coerced to_datetime1 (getitem df name))))
  = parsed_dates to_datetime1 df name.
Proof.
  rewrite parsed_dates_flat_map. unfold coerced at 1.
  unfold getitem at 2. unfold iloc_col. apply dropna_dates.
Qed.

(** Lines 53-63 by the kind of the resolved column. *)
Lemma streak_dates_by_kind (df : DataFrame) (name : string) :
  streak_dates to_datetime1 to_datetime_kind df name
  = match to_datetime_kind (getitem df name) with
    | datetimelike =>
        ([], value match parsed_dates to_datetime1 df name with
                   | [] => None
                   | dates => Some dates
                   end)
    | object_column =>
        ([], match parsed_dates to_datetime1 df name with
             | [] => value None
             | _ => raised (AttributeError dt_accessor_text)
             end)
    | conversion_error e =>
        ([st_warning ("Streak: Error parsing timestamp column '"
                      ++ name ++ "': " ++ e)%string], value None)
    end.
Proof.
  unfold streak_dates, to_datetime_coerce, assemble.
  rewrite <- kept_dates.
  destruct (to_datetime_kind (getitem df name)); cbn [values_of];
    [| |reflexivity]; now destruct (dropna _).
Qed.

Lemma heatmap_dates_by_kind (df : DataFrame) (name : string) :
  heatmap_dates to_datetime1 to_datetime_kind df name
  = match to_datetime_kind (getitem df name) with
    | datetimelike =>
        ([], value match parsed_dates to_datetime1 df name with
                   | [] => None
                   | dates => Some dates
                   end)
    | object_column =>
        ([], match parsed_dates to_datetime1 df name with
             | [] => value None
             | _ => raised (AttributeError dt_accessor_text)
             end)
    | conversion_error e =>
        ([st_warning ("Heatmap: Error parsing timestamp column '"
                      ++ name ++ "': " ++ e)%string], value None)
    end.
Proof.
  unfold heatmap_dates, to_datetime_coerce, assemble.
  rewrite <- kept_dates.
  destruct (to_datetime_kind (getitem df name)); cbn [values_of];
    [| |reflexivity]; destruct (dropna _); try reflexivity.
  now rewrite map_map.
Qed.

End Resolver.

Section Claims.

Variable to_datetime1 : list cell -> string -> converted.
Variable to_datetime_kind : list cell -> kind.
Variable calplot_raises : list (timestamp * Z) -> option string.

Lemma truthy_nonempty (s : string) : s <> ""%string -> truthy s = true.
Proof. destruct s; [congruence | reflexivity]. Qed.

Ltac selection_cases df Hnames :=
  destruct (has_column "timestamp" df) eqn:Ht;
    [ cbn; repeat split; try discriminate; try reflexivity;
      intros (Hf & _); discriminate Hf |];
  destruct (has_column "Date and Time" df) eqn:Hd;
    [ cbn; repeat split; try discriminate; try reflexivity;
      intros (_ & Hf & _); discriminate Hf |];
  destruct (columns df) as [|first others] eqn:Hc;
    [ cbn; repeat split; try discriminate; try reflexivity; auto |];
  assert (Hfirst : truthy first = true)
    by (apply truthy_nonempty; now inversion Hnames);
  cbn [List.length Nat.ltb Nat.leb nth];
  destruct (to_datetime_raise to_datetime1 to_datetime_kind (iloc_col 0 df)) eqn:Hr;
    cbn [resolved]; rewrite ?Hfirst;
    repeat split; try discriminate; try reflexivity; try congruence; auto;
    try (intros first' others' [= <- <-]; split; congruence);
    try (intros (_ & _ & [Hf|Hf]); discriminate Hf).

Lemma streak_selection_policy (df : DataFrame) :
  Forall (fun c => c <> ""%string) (columns df) ->
  selection_policy to_datetime1 to_datetime_kind
    (streak_timestamp_col to_datetime1 to_datetime_kind) df.
Proof.
  intro Hnames. unfold selection_policy, streak_timestamp_col.
  selection_cases df Hnames.
Qed.

Lemma heatmap_selection_policy (df : DataFrame) :
  Forall (fun c => c <> ""%string) (columns df) ->
  selection_policy to_datetime1 to_datetime_kind
    (heatmap_timestamp_col to_datetime1 to_datetime_kind) df.
Proof.
  intro Hnames. unfold selection_policy, heatmap_timestamp_col.
  selection_cases df Hnames.
Qed.

Lemma streak_unresolved_result (df : DataFrame) (size : Z) (today : date) :
  size <> 0 -> empty df = false ->
  resolved (streak_timestamp_col to_datetime1 to_datetime_kind df) = None ->
  exists text,
    calculate_streak to_datetime1 to_datetime_kind (OnDisk size (inr df)) today
    = ([st_warning text], value 0).
Proof.
  intros Hsize Hempty Hres. unfold calculate_streak.
  destruct (Z.eqb_spec size 0); [contradiction|]. rewrite Hempty.
  destruct (streak_timestamp_col to_datetime1 to_datetime_kind df) as [w|name] eqn:Es.
  - unfold streak_timestamp_col in Es.
    destruct (has_column "timestamp" df); [discriminate|].
    destruct (has_column "Date and Time" df); [discriminate|].
    destruct (0 <? List.length (columns df))%nat.
    + destruct (to_datetime_raise to_datetime1 to_datetime_kind (iloc_col 0 df));
        [discriminate|].
      injection Es as <-. eauto.
    + injection Es as <-. eauto.
  - cbn [resolved] in Hres. destruct (truthy name); [discriminate|]. cbn. eauto.
Qed.

Lemma heatmap_unresolved_result (df : DataFrame) (size : Z) :
  size <> 0 -> empty df = false ->
  resolved (heatmap_timestamp_col to_datetime1 to_datetime_kind df) = None ->
  exists text,
    create_activity_heatmap to_datetime1 to_datetime_kind calplot_raises
      (OnDisk size (inr df))
    = ([st_warning text], value None).
Proof.
  intros Hsize Hempty Hres. unfold create_activity_heatmap.
  destruct (Z.eqb_spec size 0); [contradiction|]. rewrite Hempty.
  destruct (heatmap_timestamp_col to_datetime1 to_datetime_kind df) as [w|name] eqn:Es.
  - unfold heatmap_timestamp_col in Es.
    destruct (has_column "timestamp" df); [discriminate|].
    destruct (has_column "Date and Time" df); [discriminate|].
    destruct (0 <? List.length (columns df))%nat.
    + destruct (to_datetime_raise to_datetime1 to_datetime_kind (iloc_col 0 df));
        [discriminate|].
      injection Es as <-. eauto.
    + injection Es as <-. eauto.
  - cbn [resolved] in Hres. destruct (truthy name); [discriminate|]. cbn. eauto.
Qed.

(** C3. For a frame as [pd.read_csv] returns it (no column has the empty
    name), both functions select the timestamp column in this order: a
    column named "timestamp"; else a column named "Date and Time"; else the
    first column, used exactly when [pd.to_datetime(..., errors='raise')]
    accepts it. Selection fails exactly when neither name is present and
    there is no column or that conversion raises; on a non-empty frame the
    streak is then 0 and the heatmap is [None], each with one warning. *)
Theorem timestamp_column_selection_order (df : DataFrame) :
  Forall (fun c => c <> ""%string) (columns df) ->
  selection_policy to_datetime1 to_datetime_kind
    (streak_timestamp_col to_datetime1 to_datetime_kind) df
  /\ selection_policy to_datetime1 to_datetime_kind
       (heatmap_timestamp_col to_datetime1 to_datetime_kind) df
  /\ (empty df = false ->
      forall size today, size <> 0 ->
        (resolved (streak_timestamp_col to_datetime1 to_datetime_kind df) = None ->
         exists text,
           calculate_streak to_datetime1 to_datetime_kind (OnDisk size (inr df)) today
           = ([st_warning text], value 0))
        /\ (resolved (heatmap_timestamp_col to_datetime1 to_datetime_kind df) = None ->
            exists text,
              create_activity_heatmap to_datetime1 to_datetime_kind calplot_raises
                (OnDisk size (inr df))
              = ([st_warning text], value None))).
Proof.
  intro Hnames.
  split; [now apply streak_selection_policy|].
  split; [now apply heatmap_selection_policy|].
  intros Hempty size today Hsize. split.
  - now apply streak_unresolved_result.
  - now apply heatmap_unresolved_result.
Qed.

Lemma resolved_Some (selection : st_message + string) (name : string) :
  resolved selection = Some name ->
  selection = inr name /\ truthy name = true.
Proof.
  destruct selection as [w|n]; cbn [resolved]; [discriminate|].
  destruct (truthy n) eqn:E; [|discriminate]. now intros [= <-].
Qed.

(** The streak function on a non-empty frame with a resolved column, by
    the kind of that column. *)
Lemma calculate_streak_by_kind (df : DataFrame) (size : Z) (today : date)
    (name : string) :
  size <> 0 -> empty df = false ->
  resolved (streak_timestamp_col to_datetime1 to_datetime_kind df) = Some name ->
  calculate_streak to_datetime1 to_datetime_kind (OnDisk size (inr df)) today
  = match to_datetime_kind (getitem df name) with
    | datetimelike =>
        ([], value (streak_of_dates (parsed_dates to_datetime1 df name) today))
    | object_column =>
        ([], match parsed_dates to_datetime1 df name with
             | [] => value 0
             | _ => raised (AttributeError dt_accessor_text)
             end)
    | conversion_error e =>
        ([st_warning ("Streak: Error parsing timestamp column '"
                      ++ name ++ "': " ++ e)%string], value 0)
    end.
Proof.
  intros Hsize Hempty Hres. apply resolved_Some in Hres. destruct Hres as [Es Ht].
  unfold calculate_streak.
  destruct (Z.eqb_spec size 0); [contradiction|].
  rewrite Hempty, Es, Ht. cbn [negb]. rewrite streak_dates_by_kind.
  destruct (to_datetime_kind (getitem df name)); [| |reflexivity];
    now destruct (parsed_dates to_datetime1 df name).
Qed.

Lemma calculate_streak_resolved (df : DataFrame) (size : Z) (today : date)
    (name : string) :
  size <> 0 -> empty df = false ->
  resolved (streak_timestamp_col to_datetime1 to_datetime_kind df) = Some name ->
  to_datetime_kind (getitem df name) = datetimelike ->
  calculate_streak to_datetime1 to_datetime_kind (OnDisk size (inr df)) today
  = ([], value (streak_of_dates (parsed_dates to_datetime1 df name) today)).
Proof.
  intros Hsize Hempty Hres Hkind.
  now rewrite (calculate_streak_by_kind df size today name), Hkind.
Qed.

(** The heatmap function likewise. *)
Lemma create_activity_heatmap_by_kind (df : DataFrame) (size : Z) (name : string) :
  size <> 0 -> empty df = false ->
  resolved (heatmap_timestamp_col to_datetime1 to_datetime_kind df) = Some name ->
  create_activity_heatmap to_datetime1 to_datetime_kind calplot_raises
    (OnDisk size (inr df))
  = match to_datetime_kind (getitem df name) with
    | datetimelike =>
        ([], figure_of_dates calplot_raises (parsed_dates to_datetime1 df name))
    | object_column =>
        ([], match parsed_dates to_datetime1 df name with
             | [] => value None
             | _ => raised (AttributeError dt_accessor_text)
             end)
    | conversion_error e =>
        ([st_warning ("Heatmap: Error parsing timestamp column '"
                      ++ name ++ "': " ++ e)%string], value None)
    end.
Proof.
  intros Hsize Hempty Hres. apply resolved_Some in Hres. destruct Hres as [Es Ht].
  unfold create_activity_heatmap, figure_of_dates.
  destruct (Z.eqb_spec size 0); [contradiction|].
  rewrite Hempty, Es, Ht. cbn [negb]. rewrite heatmap_dates_by_kind.
  destruct (to_datetime_kind (getitem df name)); [| |reflexivity].
  - destruct (parsed_dates to_datetime1 df name); [reflexivity|].
    destruct (events_of _); [reflexivity|]. now destruct (calplot_raises _).
  - now destruct (parsed_dates to_datetime1 df name).
Qed.

Lemma create_activity_heatmap_resolved (df : DataFrame) (size : Z) (name : string) :
  size <> 0 -> empty df = false ->
  resolved (heatmap_timestamp_col to_datetime1 to_datetime_kind df) = Some name ->
  to_datetime_kind (getitem df name) = datetimelike ->
  create_activity_heatmap to_datetime1 to_datetime_kind calplot_raises
    (OnDisk size (inr df))
  = ([], figure_of_dates calplot_raises (parsed_dates to_datetime1 df name)).
Proof.
  intros Hsize Hempty Hres Hkind.
  now rewrite (create_activity_heatmap_by_kind df size name), Hkind.
Qed.

Lemma selections_agree (df : DataFrame) :
  resolved (streak_timestamp_col to_datetime1 to_datetime_kind df)
  = resolved (heatmap_timestamp_col to_datetime1 to_datetime_kind df).
Proof.
  unfold streak_timestamp_col, heatmap_timestamp_col.
  destruct (has_column "timestamp" df); [reflexivity|].
  destruct (has_column "Date and Time" df); [reflexivity|].
  destruct (0 <? List.length (columns df))%nat; [|reflexivity].
  now destruct (to_datetime_raise to_datetime1 to_datetime_kind (iloc_col 0 df)).
Qed.

(** C4. On a non-empty frame with a resolved timestamp column: when
    [pd.to_datetime] yields a datetime column, the records whose timestamp
    does not parse are left out and the others are all used, the streak
    being the streak of their dates and the figure being drawn from their
    daily counts, one count per such record; but when it yields an object
    column and some record parses, [.dt] raises [AttributeError] in both
    functions at lines 63 and 138, outside every handler, and no record is
    used. *)
Theorem records_dropped_unless_dt_raises (df : DataFrame) (size : Z) (today : date)
    (name : string) :
  size <> 0 -> empty df = false ->
  resolved (streak_timestamp_col to_datetime1 to_datetime_kind df) = Some name ->
  let dates := parsed_dates to_datetime1 df name in
  (to_datetime_kind (getitem df name) = datetimelike ->
   calculate_streak to_datetime1 to_datetime_kind (OnDisk size (inr df)) today
   = ([], value (streak_of_dates dates today))
   /\ create_activity_heatmap to_datetime1 to_datetime_kind calplot_raises
        (OnDisk size (inr df))
      = ([], figure_of_dates calplot_raises dates)
   /\ total (daily_counts dates)
      = Z.of_nat (List.length
                    (filter (fun record =>
                               match record_date to_datetime1 df name record with
                               | Some _ => true
                               | None => false
                               end) (rows df)))
   /\ (forall record d, In record (rows df) ->
         record_date to_datetime1 df name record = Some d ->
         In d dates /\ exists c, In (d, c) (daily_counts dates) /\ 1 <= c))
  /\ (to_datetime_kind (getitem df name) = object_column ->
      dates <> [] ->
      calculate_streak to_datetime1 to_datetime_kind (OnDisk size (inr df)) today
      = ([], raised (AttributeError dt_accessor_text))
      /\ create_activity_heatmap to_datetime1 to_datetime_kind calplot_raises
           (OnDisk size (inr df))
         = ([], raised (AttributeError dt_accessor_text))).
Proof.
  intros Hsize Hempty Hres dates.
  assert (Hres' : resolved (heatmap_timestamp_col to_datetime1 to_datetime_kind df)
                  = Some name) by (now rewrite <- selections_agree).
  split.
  - intro Hkind.
    split; [now apply calculate_streak_resolved|].
    split; [now apply create_activity_heatmap_resolved|].
    split.
    + rewrite daily_counts_total. f_equal. subst dates. unfold parsed_dates.
      induction (rows df) as [|r records IH]; cbn [flat_map filter]; [reflexivity|].
      rewrite length_app, IH.
      now destruct (record_date to_datetime1 df name r).
    + intros record d Hin Hd.
      assert (Hdates : In d dates).
      { subst dates. unfold parsed_dates. apply in_flat_map.
        exists record. split; [assumption|]. rewrite Hd. now left. }
      split; [assumption|].
      exists (occurrences d dates). split.
      * apply daily_counts_In. now split.
      * pose proof (proj2 (occurrences_pos d dates) Hdates). lia.
  - intros Hkind Hsome.
    rewrite (calculate_streak_by_kind df size today name Hsize Hempty Hres).
    rewrite (create_activity_heatmap_by_kind df size name Hsize Hempty Hres').
    rewrite Hkind. fold dates. now destruct dates.
Qed.

(** C8. When the record store is missing or empty, the streak computation
    returns 0 and the heatmap computation returns [None]: each ends with a
    value, not with an exception. *)
Theorem missing_or_empty_store_defaults (file : csv_file) (today : date) :
  unavailable file = true ->
  snd (calculate_streak to_datetime1 to_datetime_kind file today) = value 0
  /\ snd (create_activity_heatmap to_datetime1 to_datetime_kind calplot_raises file)
     = value None.
Proof.
  unfold unavailable, calculate_streak, create_activity_heatmap.
  destruct file as [|size read_csv]; [now split|].
  destruct (size =? 0); [now split|]. cbn [orb].
  destruct read_csv as [[text|text|text]|df]; try (now split); try discriminate.
  intros ->. now split.
Qed.

(** C10. The resolving and parsing stages written out in the two functions
    agree on every frame: they go on with the same timestamp column or both
    stop, and for every column they end alike: with the same dates in the
    same order (hence the same multiset), with no row left, with their
    warning about the conversion, or with the same exception. Apart from
    the text of that warning the two stages are equal. *)
Theorem streak_and_heatmap_stages_agree (df : DataFrame) :
  resolved (streak_timestamp_col to_datetime1 to_datetime_kind df)
  = resolved (heatmap_timestamp_col to_datetime1 to_datetime_kind df)
  /\ ((exists w, streak_timestamp_col to_datetime1 to_datetime_kind df = inl w)
      <-> (exists w, heatmap_timestamp_col to_datetime1 to_datetime_kind df = inl w))
  /\ (forall name, streak_timestamp_col to_datetime1 to_datetime_kind df = inr name
                   <-> heatmap_timestamp_col to_datetime1 to_datetime_kind df = inr name)
  /\ (forall name,
        snd (streak_dates to_datetime1 to_datetime_kind df name)
        = snd (heatmap_dates to_datetime1 to_datetime_kind df name)
        /\ List.length (fst (streak_dates to_datetime1 to_datetime_kind df name))
           = List.length (fst (heatmap_dates to_datetime1 to_datetime_kind df name))
        /\ ((forall e, to_datetime_kind (getitem df name) <> conversion_error e) ->
            streak_dates to_datetime1 to_datetime_kind df name
            = heatmap_dates to_datetime1 to_datetime_kind df name))
  /\ (forall name ds dh,
        snd (streak_dates to_datetime1 to_datetime_kind df name) = value (Some ds) ->
        snd (heatmap_dates to_datetime1 to_datetime_kind df name) = value (Some dh) ->
        Permutation ds dh).
Proof.
  split; [apply selections_agree|].
  split; [|split; [|split]].
  - unfold streak_timestamp_col, heatmap_timestamp_col.
    destruct (has_column "timestamp" df); [split; intros [w Hw]; discriminate|].
    destruct (has_column "Date and Time" df); [split; intros [w Hw]; discriminate|].
    destruct (0 <? List.length (columns df))%nat; [|split; eauto].
    destruct (to_datetime_raise to_datetime1 to_datetime_kind (iloc_col 0 df));
      [split; intros [w Hw]; discriminate | split; eauto].
  - intro name. unfold streak_timestamp_col, heatmap_timestamp_col.
    destruct (has_column "timestamp" df); [reflexivity|].
    destruct (has_column "Date and Time" df); [reflexivity|].
    destruct (0 <? List.length (columns df))%nat; [|split; discriminate].
    destruct (to_datetime_raise to_datetime1 to_datetime_kind (iloc_col 0 df));
      [reflexivity | split; discriminate].
  - intro name. rewrite streak_dates_by_kind, heatmap_dates_by_kind.
    destruct (to_datetime_kind (getitem df name)) as [| |e]; cbn [fst snd];
      (split; [reflexivity|]); (split; [reflexivity|]);
      try reflexivity.
    intro Hne. exfalso. now apply (Hne e).
  - intros name ds dh Hs Hh.
    rewrite streak_dates_by_kind in Hs. rewrite heatmap_dates_by_kind in Hh.
    destruct (to_datetime_kind (getitem df name)); cbn [snd] in Hs, Hh.
    + rewrite Hs in Hh. injection Hh as <-. reflexivity.
    + destruct (parsed_dates to_datetime1 df name); discriminate.
    + discriminate.
Qed.

Lemma walk_bounds (remaining : list date) (cursor : date) :
  0 <= Spec.walk cursor remaining <= Z.of_nat (List.length remaining).
Proof.
  revert cursor. induction remaining as [|d remaining IH]; intro c;
    cbn [Spec.walk List.length]; [lia|].
  destruct (d =? c - 1); [specialize (IH d)|]; lia.
Qed.

Lemma streak_of_dates_bounds (dates : list date) (today : date) :
  0 <= streak_of_dates dates today <= Z.of_nat (List.length (unique dates)).
Proof.
  unfold streak_of_dates.
  rewrite <- (Permutation_length (sorted_reverse_perm (unique dates))).
  destruct (sorted_reverse (unique dates)) as [|first remaining];
    [cbn; lia|].
  rewrite streak_of_unique_dates_walk.
  pose proof (walk_bounds remaining first). cbn [List.length].
  unfold date in *.
  destruct ((first =? today) || (first =? today - 1)); lia.
Qed.

(** Either a function returns its default before the parsing stage, with at
    most one message, or it reaches that stage on a non-empty frame with a
    resolved column. *)
Lemma calculate_streak_cases (file : csv_file) (today : date) :
  (exists messages,
     calculate_streak to_datetime1 to_datetime_kind file today = (messages, value 0)
     /\ (List.length messages <= 1)%nat)
  \/ exists size df name,
       file = OnDisk size (inr df) /\ size <> 0 /\ empty df = false
       /\ resolved (streak_timestamp_col to_datetime1 to_datetime_kind df) = Some name.
Proof.
  unfold calculate_streak.
  destruct file as [|size read_csv]; [left; eexists; split; [reflexivity | cbn; lia]|].
  destruct (Z.eqb_spec size 0) as [|Hsize];
    [left; eexists; split; [reflexivity | cbn; lia]|].
  destruct read_csv as [[text|text|text]|df];
    try (left; eexists; split; [reflexivity | cbn; lia]).
  destruct (empty df) eqn:Hempty;
    [left; eexists; split; [reflexivity | cbn; lia]|].
  destruct (streak_timestamp_col to_datetime1 to_datetime_kind df) as [w|name] eqn:Es;
    [left; eexists; split; [reflexivity | cbn; lia]|].
  destruct (truthy name) eqn:Et; cbn [negb];
    [|left; eexists; split; [reflexivity | cbn; lia]].
  right. exists size, df, name.
  split; [reflexivity|]. split; [assumption|]. split; [assumption|].
  rewrite Es. cbn [resolved]. now rewrite Et.
Qed.

Lemma create_activity_heatmap_cases (file : csv_file) :
  (exists messages,
     create_activity_heatmap to_datetime1 to_datetime_kind calplot_raises file
     = (messages, value None)
     /\ (List.length messages <= 1)%nat)
  \/ exists size df name,
       file = OnDisk size (inr df) /\ size <> 0 /\ empty df = false
       /\ resolved (heatmap_timestamp_col to_datetime1 to_datetime_kind df) = Some name.
Proof.
  unfold create_activity_heatmap.
  destruct file as [|size read_csv]; [left; eexists; split; [reflexivity | cbn; lia]|].
  destruct (Z.eqb_spec size 0) as [|Hsize];
    [left; eexists; split; [reflexivity | cbn; lia]|].
  destruct read_csv as [e|df];
    [left; eexists; split; [reflexivity | cbn; lia]|].
  destruct (empty df) eqn:Hempty;
    [left; eexists; split; [reflexivity | cbn; lia]|].
  destruct (heatmap_timestamp_col to_datetime1 to_datetime_kind df) as [w|name] eqn:Es;
    [left; eexists; split; [reflexivity | cbn; lia]|].
  destruct (truthy name) eqn:Et; cbn [negb];
    [|left; eexists; split; [reflexivity | cbn; lia]].
  right. exists size, df, name.
  split; [reflexivity|]. split; [assumption|]. split; [assumption|].
  rewrite Es. cbn [resolved]. now rewrite Et.
Qed.

(** C9. Whenever the streak computation returns, its value is an integer
    between 0 and the number of distinct calendar dates parsed from the
    input (and so is the streak of any sequence of parsed dates); but it
    does not always return: it ends with the [AttributeError] of [.dt]
    (line 63, outside every handler), having shown no message, exactly when
    the file is read into a non-empty frame, a timestamp column is
    resolved, [pd.to_datetime] yields an object column for it and some
    record parses. *)
Theorem streak_bounded_unless_dt_raises (file : csv_file) (today : date) :
  (forall messages n,
     calculate_streak to_datetime1 to_datetime_kind file today = (messages, value n) ->
     0 <= n
       <= Z.of_nat (List.length
                      (unique (input_dates to_datetime1 to_datetime_kind file))))
  /\ (forall messages e,
        calculate_streak to_datetime1 to_datetime_kind file today
        = (messages, raised e)
        <-> messages = [] /\ e = AttributeError dt_accessor_text
            /\ exists size df name,
                 file = OnDisk size (inr df) /\ size <> 0 /\ empty df = false
                 /\ resolved (streak_timestamp_col to_datetime1 to_datetime_kind df)
                    = Some name
                 /\ to_datetime_kind (getitem df name) = object_column
                 /\ parsed_dates to_datetime1 df name <> [])
  /\ (forall dates,
        0 <= streak_of_dates dates today <= Z.of_nat (List.length (unique dates))).
Proof.
  split; [|split; [|intro dates; apply streak_of_dates_bounds]].
  - intros messages n E.
    destruct (calculate_streak_cases file today)
      as [(messages' & E' & _)|(size & df & name & -> & Hsize & Hempty & Hres)].
    + rewrite E' in E. injection E as _ <-. lia.
    + rewrite (calculate_streak_by_kind df size today name Hsize Hempty Hres) in E.
      cbn [input_dates]. rewrite Hres.
      destruct (to_datetime_kind (getitem df name)).
      * injection E as _ <-. apply streak_of_dates_bounds.
      * destruct (parsed_dates to_datetime1 df name); [|discriminate].
        injection E as _ <-. cbn. lia.
      * injection E as _ <-. lia.
  - intros messages e. split.
    + intro E.
      destruct (calculate_streak_cases file today)
        as [(messages' & E' & _)|(size & df & name & -> & Hsize & Hempty & Hres)].
      * rewrite E' in E. discriminate E.
      * rewrite (calculate_streak_by_kind df size today name Hsize Hempty Hres) in E.
        destruct (to_datetime_kind (getitem df name)) eqn:Hkind; try discriminate E.
        destruct (parsed_dates to_datetime1 df name) eqn:Hdates; [discriminate E|].
        injection E as <- <-. split; [reflexivity|]. split; [reflexivity|].
        exists size, df, name. rewrite Hdates. repeat split; try assumption.
        discriminate.
    + intros (-> & -> & size & df & name & -> & Hsize & Hempty & Hres & Hkind & Hsome).
      rewrite (calculate_streak_by_kind df size today name Hsize Hempty Hres), Hkind.
      now destruct (parsed_dates to_datetime1 df name).
Qed.

End Claims.

(** ** The scenarios of the specification, evaluated *)

Example scenario_1_three_consecutive_days :
  calculate_streak Iso.in_column Iso.kind_of
    (Sample.on_disk Sample.three_days) Sample.jan_3
  = ([], value 3).
Proof. reflexivity. Qed.

Example scenario_2_gap_yesterday :
  calculate_streak Iso.in_column Iso.kind_of
    (Sample.on_disk Sample.gap_day) Sample.jan_3
  = ([], value 1).
Proof. reflexivity. Qed.

Example scenario_3_empty_store :
  calculate_streak Iso.in_column Iso.kind_of
    (OnDisk 0 (inl (EmptyDataError ""))) Sample.jan_3
  = ([], value 0)
  /\ create_activity_heatmap Iso.in_column Iso.kind_of Iso.calplot_raises Absent
     = ([], value None).
Proof. split; reflexivity. Qed.

Example scenario_4_legacy_column :
  resolved (heatmap_timestamp_col Iso.in_column Iso.kind_of Sample.legacy)
  = Some "Date and Time"%string
  /\ daily_counts (parsed_dates Iso.in_column Sample.legacy "Date and Time")
     = [(Sample.jan_3, 2)].
Proof. split; reflexivity. Qed.

Example first_column_with_bad_value_stops :
  calculate_streak Iso.in_column Iso.kind_of
    (Sample.on_disk Sample.first_column_bad) Sample.jan_3
  = ([st_warning "Streak: Could not identify a suitable timestamp column."],
     value 0).
Proof. reflexivity. Qed.

Example stale_entry_gives_zero :
  streak_of_dates [Sample.jan_3 - 2; Sample.jan_3 - 3] Sample.jan_3 = 0.
Proof. reflexivity. Qed.

Example future_entry_gives_zero :
  streak_of_dates [Sample.jan_3 + 1; Sample.jan_3] Sample.jan_3 = 0.
Proof. reflexivity. Qed.

Example other_format_than_the_first_is_dropped :
  calculate_streak Iso.in_column Iso.kind_of
    (Sample.on_disk
       (mkDataFrame ["timestamp"; "mood"]%string
          [ [Some "2024-01-03 09:00:00"; Some "Happy"];
            [Some "2024-01-02"; Some "Sad"] ]%string)) Sample.jan_3
  = ([], value 1).
Proof. reflexivity. Qed.

(** ** Instances of the theorems that have premises *)

Lemma streak_ignores_dates_beyond_gap_witness :
  streak_of_dates [5; 4; 3; 10; 9] 10 = streak_of_dates [10; 9] 10
  /\ streak_of_dates [5; 4; 3; 10; 9] 10 = 2.
Proof.
  destruct (streak_ignores_dates_beyond_gap
              [10; 9] [5; 4; 3] [5; 4; 3; 10; 9] 10 10 9) as [Hsame Htwo].
  split.
  - apply Hsame.
    + left. reflexivity.
    + lia.
    + intros d Hd. simpl. lia.
    + simpl. lia.
    + intros x Hx. simpl in Hx. lia.
    + exact (Permutation_app_comm [5; 4; 3] [10; 9]).
  - apply Htwo.
    + intros x Hx. simpl in Hx. lia.
    + exact (Permutation_app_comm [5; 4; 3] [10; 9]).
Defined.

Lemma timestamp_column_selection_order_witness :
  resolved (streak_timestamp_col Iso.in_column Iso.kind_of Sample.legacy)
  = Some "Date and Time"%string
  /\ resolved (heatmap_timestamp_col Iso.in_column Iso.kind_of Sample.first_column)
     = Some "when"%string
  /\ exists text,
       calculate_streak Iso.in_column Iso.kind_of
         (Sample.on_disk Sample.first_column_bad) Sample.jan_3
       = ([st_warning text], value 0).
Proof.
  split; [|split].
  - destruct (timestamp_column_selection_order Iso.in_column Iso.kind_of
                Iso.calplot_raises Sample.legacy)
      as [(_ & Hlegacy & _) _].
    + repeat constructor; discriminate.
    + apply Hlegacy; reflexivity.
  - destruct (timestamp_column_selection_order Iso.in_column Iso.kind_of
                Iso.calplot_raises Sample.first_column)
      as (_ & (_ & _ & Hfirst & _) & _).
    + repeat constructor; discriminate.
    + apply (Hfirst eq_refl eq_refl "when"%string ["mood"%string] eq_refl).
      discriminate.
  - destruct (timestamp_column_selection_order Iso.in_column Iso.kind_of
                Iso.calplot_raises Sample.first_column_bad)
      as (_ & _ & Hfail).
    + repeat constructor; discriminate.
    + apply (Hfail eq_refl 180 Sample.jan_3); [discriminate | reflexivity].
Defined.

Lemma records_dropped_unless_dt_raises_witness :
  (calculate_streak Iso.in_column Iso.kind_of
     (Sample.on_disk Sample.one_bad_row) Sample.jan_3
   = ([], value 1)
   /\ create_activity_heatmap Iso.in_column Iso.kind_of Iso.calplot_raises
        (Sample.on_disk Sample.one_bad_row)
      = ([], value (Some (calplot [(date_to_datetime Sample.jan_3, 1)]))))
  /\ (calculate_streak Iso.in_column Iso.kind_of
        (Sample.on_disk Sample.mixed_offsets) Sample.jan_3
      = ([], raised (AttributeError dt_accessor_text))
      /\ create_activity_heatmap Iso.in_column Iso.kind_of Iso.calplot_raises
           (Sample.on_disk Sample.mixed_offsets)
         = ([], raised (AttributeError dt_accessor_text))).
Proof.
  split.
  - destruct (records_dropped_unless_dt_raises Iso.in_column Iso.kind_of
                Iso.calplot_raises Sample.one_bad_row 180 Sample.jan_3 "timestamp")
      as [Hused _].
    + discriminate.
    + reflexivity.
    + reflexivity.
    + destruct (Hused eq_refl) as (Hstreak & Hheatmap & _).
      split; [exact Hstreak | exact Hheatmap].
  - destruct (records_dropped_unless_dt_raises Iso.in_column Iso.kind_of
                Iso.calplot_raises Sample.mixed_offsets 180 Sample.jan_3 "timestamp")
      as [_ Hraises].
    + discriminate.
    + reflexivity.
    + reflexivity.
    + apply Hraises; [reflexivity | discriminate].
Defined.

Lemma duplicates_once_for_streak_each_for_counts_witness :
  streak_of_dates [10; 10; 9] 10 = streak_of_dates [10; 9] 10
  /\ streak_of_dates [10; 9] 10 = streak_of_dates (unique [10; 9]) 10
  /\ count_on 10 (daily_counts [10; 9]) = Some 1
  /\ count_on 10 (daily_counts [10; 10; 9]) = Some 2.
Proof.
  apply (duplicates_once_for_streak_each_for_counts [10; 9] [10; 10; 9] 10 10).
  - left. reflexivity.
  - apply Permutation_refl.
Defined.

Lemma daily_counts_sum_and_sparse_witness :
  total (daily_counts [3; 1; 3]) = 3
  /\ (1 <= 2 /\ In 3 [3; 1; 3] /\ 2 = occurrences 3 [3; 1; 3]).
Proof.
  destruct (daily_counts_sum_and_sparse [3; 1; 3]) as [Hsum Hentries].
  split; [exact Hsum|].
  apply (Hentries 3 2). right. left. reflexivity.
Defined.

Lemma daily_counts_order_independent_witness :
  daily_counts [3; 1; 3] = daily_counts [1; 3; 3]
  /\ ascending_index (daily_counts [3; 1; 3]).
Proof.
  apply (daily_counts_order_independent [3; 1; 3] [1; 3; 3]).
  apply perm_swap.
Defined.

Lemma missing_or_empty_store_defaults_witness :
  snd (calculate_streak Iso.in_column Iso.kind_of
         (OnDisk 2 (inl (EmptyDataError "No columns to parse from file")))
         Sample.jan_3) = value 0
  /\ snd (create_activity_heatmap Iso.in_column Iso.kind_of Iso.calplot_raises
            (OnDisk 2 (inl (EmptyDataError "No columns to parse from file"))))
     = value None.
Proof.
  apply (missing_or_empty_store_defaults Iso.in_column Iso.kind_of Iso.calplot_raises
           (OnDisk 2 (inl (EmptyDataError "No columns to parse from file")))
           Sample.jan_3).
  reflexivity.
Defined.

Lemma streak_bounded_unless_dt_raises_witness :
  calculate_streak Iso.in_column Iso.kind_of
    (Sample.on_disk Sample.mixed_offsets) Sample.jan_3
  = ([], raised (AttributeError dt_accessor_text))
  /\ 0 <= 3 <= Z.of_nat (List.length
                  (unique (input_dates Iso.in_column Iso.kind_of
                             (Sample.on_disk Sample.three_days)))).
Proof.
  split.
  - apply (proj2 (proj1 (proj2 (streak_bounded_unless_dt_raises
                                  Iso.in_column Iso.kind_of
                                  (Sample.on_disk Sample.mixed_offsets)
                                  Sample.jan_3)) [] (AttributeError dt_accessor_text))).
    split; [reflexivity|]. split; [reflexivity|].
    exists 180, Sample.mixed_offsets, "timestamp"%string.
    repeat split; try reflexivity; discriminate.
  - apply (proj1 (streak_bounded_unless_dt_raises Iso.in_column Iso.kind_of
                    (Sample.on_disk Sample.three_days) Sample.jan_3) []).
    reflexivity.
Defined.

Lemma streak_and_heatmap_stages_agree_witness :
  Permutation [Sample.jan_3; Sample.jan_3] [Sample.jan_3; Sample.jan_3].
Proof.
  destruct (streak_and_heatmap_stages_agree Iso.in_column Iso.kind_of Sample.legacy)
    as (_ & _ & _ & _ & Hperm).
  apply (Hperm "Date and Time"%string); reflexivity.
Defined.

(** * Further properties of the page *)

(** ** The streak, day by day *)

(** The walk stops exactly where the run of consecutive days ends. *)
Lemma walk_run_holds (remaining : list date) (cursor : date) :
  descending (cursor :: remaining) ->
  (forall d, cursor - Spec.walk cursor remaining <= d <= cursor ->
             In d (cursor :: remaining))
  /\ ~ In (cursor - Spec.walk cursor remaining - 1) (cursor :: remaining).
Proof.
  revert cursor. induction remaining as [|x remaining IH]; intros c Hs.
  - cbn [Spec.walk]. split.
    + intros d Hd. left. lia.
    + intros [E|[]]. lia.
  - apply descending_inv in Hs. destruct Hs as [Hs Hlt].
    pose proof (Hlt x (or_introl eq_refl)) as Hx.
    pose proof (descending_inv _ _ Hs) as [_ Hlt'].
    cbn [Spec.walk]. destruct (Z.eqb_spec x (c - 1)) as [E|Hne].
    + destruct (IH x Hs) as [Hrun Hgap].
      pose proof (walk_bounds remaining x) as [Hn _].
      split.
      * intros d Hd. destruct (Z.eq_dec d c) as [->|Hdc]; [now left|].
        right. apply Hrun. lia.
      * intros [E'|Hin]; [lia|]. apply Hgap.
        replace (x - Spec.walk x remaining - 1)
          with (c - (1 + Spec.walk x remaining) - 1) by lia.
        exact Hin.
    + split.
      * intros d Hd. left. lia.
      * intros [E|[E|Hin]]; try lia. specialize (Hlt' _ Hin). lia.
Qed.

(** With most recent date [m], the streak is 0 unless [m] is today or the
    day before, and otherwise the length of the run of present days that
    ends at [m]. *)
Lemma streak_of_dates_max (dates : list date) (today m : date) :
  In m dates -> (forall d, In d dates -> d <= m) ->
  exists n,
    0 <= n
    /\ (forall d, m - n <= d <= m -> In d dates)
    /\ ~ In (m - n - 1) dates
    /\ streak_of_dates dates today
       = if (m =? today) || (m =? today - 1) then 1 + n else 0.
Proof.
  intros Hm Hmax.
  destruct (unique_dates_head dates m Hm Hmax) as [remaining E].
  pose proof (sorted_unique_descending dates) as Hs.
  pose proof (sorted_unique_In dates) as Hin.
  rewrite E in Hs, Hin.
  destruct (walk_run_holds remaining m Hs) as [Hrun Hgap].
  exists (Spec.walk m remaining). repeat split.
  - apply walk_bounds.
  - intros d Hd. apply Hin. now apply Hrun.
  - intro H. apply Hgap. now apply Hin.
  - unfold streak_of_dates. rewrite E. apply streak_of_unique_dates_walk.
Qed.

Lemma streak_of_dates_nil (today : date) : streak_of_dates [] today = 0.
Proof. reflexivity. Qed.

Lemma streak_zero_of_no_recent (dates : list date) (today : date) :
  (~ exists m, In m dates /\ (forall d, In d dates -> d <= m)
               /\ (m = today \/ m = today - 1)) ->
  streak_of_dates dates today = 0.
Proof.
  intro Hnone. destruct dates as [|d0 dates]; [reflexivity|].
  destruct (dates_have_maximum (d0 :: dates)) as (m & Hm & Hmax); [discriminate|].
  apply (streak_of_dates_broken _ today m Hm Hmax);
    intro E; apply Hnone; exists m; auto.
Qed.

Lemma streak_zero_of_no_yesterday (dates : list date) (today : date) :
  (forall d, In d dates -> d < today) ->
  ~ In (today - 1) dates ->
  streak_of_dates dates today = 0.
Proof.
  intros Hpast Hny. apply streak_zero_of_no_recent. intros (m & Hm & _ & [E|E]).
  - specialize (Hpast m Hm). lia.
  - apply Hny. now rewrite <- E.
Qed.

(** X1. The streak is 0 exactly when there is no date, or the most recent
    date is neither today nor the day before; a date after today therefore
    gives 0 whatever else is present. *)
Theorem streak_zero_iff (dates : list date) (today : date) :
  streak_of_dates dates today = 0
  <-> ~ exists m, In m dates /\ (forall d, In d dates -> d <= m)
                  /\ (m = today \/ m = today - 1).
Proof.
  split.
  - intros Hzero (m & Hm & Hmax & Hrecent).
    destruct (streak_of_dates_max dates today m Hm Hmax) as (n & Hn & _ & _ & E).
    rewrite Hzero in E.
    replace ((m =? today) || (m =? today - 1)) with true in E
      by (symmetry; apply orb_true_iff; rewrite !Z.eqb_eq; exact Hrecent).
    lia.
  - apply streak_zero_of_no_recent.
Qed.

(** X2. For [k >= 1], the streak is at least [k] exactly when the most
    recent date is today or the day before and the [k] days ending at it
    all have a record. *)
Theorem streak_at_least_iff (dates : list date) (today k : Z) :
  1 <= k ->
  (k <= streak_of_dates dates today
   <-> exists m, In m dates /\ (forall d, In d dates -> d <= m)
                 /\ (m = today \/ m = today - 1)
                 /\ forall d, m - k < d <= m -> In d dates).
Proof.
  intro Hk. split.
  - intro Hge. destruct dates as [|d0 dates]; [rewrite streak_of_dates_nil in Hge; lia|].
    destruct (dates_have_maximum (d0 :: dates)) as (m & Hm & Hmax); [discriminate|].
    destruct (streak_of_dates_max _ today m Hm Hmax) as (n & Hn & Hrun & _ & E).
    exists m. split; [assumption|]. split; [assumption|].
    destruct (Z.eqb_spec m today) as [E1|N1];
      [|destruct (Z.eqb_spec m (today - 1)) as [E2|N2]];
      cbn [orb] in E; try (rewrite E in Hge; lia).
    + split; [now left|]. intros d Hd. apply Hrun. lia.
    + split; [now right|]. intros d Hd. apply Hrun. lia.
  - intros (m & Hm & Hmax & Hrecent & Hdays).
    destruct (streak_of_dates_max _ today m Hm Hmax) as (n & Hn & _ & Hgap & E).
    replace ((m =? today) || (m =? today - 1)) with true in E
      by (symmetry; apply orb_true_iff; rewrite !Z.eqb_eq; exact Hrecent).
    rewrite E. destruct (Z_le_gt_dec k (1 + n)) as [Hle|Hgt]; [assumption|].
    exfalso. apply Hgap. apply Hdays. lia.
Qed.

(** X3. When no record is dated today or later, the streak shown today is
    the streak that was shown yesterday if yesterday has a record, and 0 if
    it has none. *)
Theorem streak_kept_until_a_day_is_missed (dates : list date) (today : date) :
  (forall d, In d dates -> d < today) ->
  (In (today - 1) dates ->
   streak_of_dates dates today = streak_of_dates dates (today - 1))
  /\ (~ In (today - 1) dates -> streak_of_dates dates today = 0).
Proof.
  intro Hpast. split.
  - intro Hy.
    assert (Hmax : forall d, In d dates -> d <= today - 1)
      by (intros d Hd; specialize (Hpast d Hd); lia).
    destruct (streak_of_dates_max _ today (today - 1) Hy Hmax)
      as (n & Hn & Hrun & Hgap & E).
    rewrite E, Z.eqb_refl, orb_true_r.
    symmetry. apply (streak_of_dates_run dates (today - 1) (today - 1) n);
      auto.
  - now apply streak_zero_of_no_yesterday.
Qed.

Lemma streak_of_dates_log_today (dates dates' : list date) (today : date) :
  (forall d, In d dates -> d < today) ->
  Permutation dates' (today :: dates) ->
  streak_of_dates dates' today = streak_of_dates dates today + 1.
Proof.
  intros Hpast Hperm.
  assert (Hin' : forall x, In x dates' <-> x = today \/ In x dates).
  { intro x. split; intro H.
    - apply (Permutation_in _ Hperm) in H. simpl in H. intuition.
    - apply (Permutation_in _ (Permutation_sym Hperm)). simpl. intuition. }
  assert (Htoday : In today dates') by (apply Hin'; now left).
  assert (Hmax' : forall d, In d dates' -> d <= today).
  { intros d Hd. apply Hin' in Hd. destruct Hd as [->|Hd]; [lia|].
    specialize (Hpast d Hd). lia. }
  destruct (in_dec Z.eq_dec (today - 1) dates) as [Hy|Hny].
  - assert (Hmax : forall d, In d dates -> d <= today - 1)
      by (intros d Hd; specialize (Hpast d Hd); lia).
    destruct (streak_of_dates_max _ today (today - 1) Hy Hmax)
      as (n & Hn & Hrun & Hgap & E).
    rewrite E, Z.eqb_refl, orb_true_r.
    rewrite (streak_of_dates_run dates' today today (n + 1)); auto; try lia.
    + intros d Hd. apply Hin'.
      destruct (Z.eq_dec d today); [now left | right; apply Hrun; lia].
    + intro H. apply Hin' in H. destruct H as [H|H]; [lia|].
      apply Hgap. replace (today - 1 - n - 1) with (today - (n + 1) - 1) by lia.
      exact H.
  - rewrite (streak_zero_of_no_yesterday dates today Hpast Hny).
    apply (streak_of_dates_run dates' today today 0); auto; try lia.
    + intros d Hd. apply Hin'. left. lia.
    + intro H. apply Hin' in H. destruct H as [H|H]; [lia|].
      apply Hny. now replace (today - 1) with (today - 0 - 1) by lia.
Qed.

(** X4. When no record is dated today or later, one more record dated
    today, inserted anywhere, raises today's streak by exactly one. *)
Theorem logging_today_extends_streak (dates dates' : list date) (today : date) :
  (forall d, In d dates -> d < today) ->
  Permutation dates' (today :: dates) ->
  streak_of_dates dates' today = streak_of_dates dates today + 1.
Proof. apply streak_of_dates_log_today. Qed.

(** ** Messages, the fallback column and the other columns *)

Section Pipeline.

Variable to_datetime1 : list cell -> string -> converted.
Variable to_datetime_kind : list cell -> kind.
Variable calplot_raises : list (timestamp * Z) -> option string.

(** X5. Each of the two functions shows at most one message, and shows one
    only when it returns its default: a positive streak, a figure or an
    exception never comes with a warning or an error. *)
Theorem message_only_with_default (file : csv_file) (today : date) :
  ((List.length (fst (calculate_streak to_datetime1 to_datetime_kind file today))
    <= 1)%nat
   /\ (fst (calculate_streak to_datetime1 to_datetime_kind file today) <> [] ->
       snd (calculate_streak to_datetime1 to_datetime_kind file today) = value 0))
  /\ ((List.length
         (fst (create_activity_heatmap to_datetime1 to_datetime_kind calplot_raises
                 file)) <= 1)%nat
      /\ (fst (create_activity_heatmap to_datetime1 to_datetime_kind calplot_raises
                 file) <> [] ->
          snd (create_activity_heatmap to_datetime1 to_datetime_kind calplot_raises
                 file) = value None)).
Proof.
  split.
  - destruct (calculate_streak_cases to_datetime1 to_datetime_kind file today)
      as [(messages & E & Hlen)|(size & df & name & -> & Hsize & Hempty & Hres)].
    + rewrite E. cbn [fst snd]. split; [assumption | reflexivity].
    + rewrite (calculate_streak_by_kind _ _ df size today name Hsize Hempty Hres).
      destruct (to_datetime_kind (getitem df name)); cbn [fst snd List.length];
        (split; [lia|]); congruence.
  - destruct (create_activity_heatmap_cases to_datetime1 to_datetime_kind
                calplot_raises file)
      as [(messages & E & Hlen)|(size & df & name & -> & Hsize & Hempty & Hres)].
    + rewrite E. cbn [fst snd]. split; [assumption | reflexivity].
    + rewrite (create_activity_heatmap_by_kind _ _ _ df size name Hsize Hempty Hres).
      destruct (to_datetime_kind (getitem df name)); cbn [fst snd List.length];
        (split; [lia|]); congruence.
Qed.

(** X6. Without a column named "timestamp" or "Date and Time", one value of
    the first column that cannot be converted stops both functions with
    their warning, whatever the other records hold: under the fallback the
    record is not dropped, the whole frame is given up. *)
Theorem fallback_column_is_all_or_nothing
    (df : DataFrame) (size : Z) (today : date) (record : list cell) :
  size <> 0 -> empty df = false ->
  has_column "timestamp" df = false ->
  has_column "Date and Time" df = false ->
  In record (rows df) ->
  convert_cell to_datetime1 (iloc_col 0 df) (nth 0 record None) = Invalid ->
  calculate_streak to_datetime1 to_datetime_kind (OnDisk size (inr df)) today
  = ([st_warning "Streak: Could not identify a suitable timestamp column."],
     value 0)
  /\ create_activity_heatmap to_datetime1 to_datetime_kind calplot_raises
       (OnDisk size (inr df))
     = ([st_warning "Heatmap: Could not identify a suitable timestamp column."],
        value None).
Proof.
  intros Hsize Hempty Ht Hd Hin Hbad.
  assert (Hraise : to_datetime_raise to_datetime1 to_datetime_kind (iloc_col 0 df)
                   = None).
  { apply to_datetime_raise_None. left. exists (nth 0 record None).
    split; [|assumption].
    unfold iloc_col. apply in_map_iff. now exists record. }
  assert (Hcols : (0 <? List.length (columns df))%nat = true).
  { unfold empty in Hempty. destruct (columns df); [discriminate | reflexivity]. }
  unfold calculate_streak, create_activity_heatmap,
    streak_timestamp_col, heatmap_timestamp_col.
  destruct (Z.eqb_spec size 0); [contradiction|].
  now rewrite Hempty, Ht, Hd, Hcols, Hraise.
Qed.

(** The parsed dates of a column are a function of its values. *)
Lemma parsed_dates_of_column (df : DataFrame) (name : string) :
  parsed_dates to_datetime1 df name
  = flat_map (fun c => match convert_cell to_datetime1 (getitem df name) c with
                       | Stamp t => [dt_date t]
                       | NaT => []
                       | Invalid => []
                       end) (getitem df name).
Proof.
  rewrite parsed_dates_flat_map.
  set (f := fun c => match convert_cell to_datetime1 (getitem df name) c with
                     | Stamp t => [dt_date t]
                     | NaT => []
                     | Invalid => []
                     end).
  unfold getitem at 2. unfold iloc_col.
  induction (rows df) as [|r records IH]; cbn [map flat_map]; [reflexivity|].
  now rewrite IH.
Qed.

Lemma empty_of_column (df : DataFrame) (name : string) :
  empty df = match columns df, getitem df name with
             | [], _ => true
             | _, [] => true
             | _, _ => false
             end.
Proof.
  unfold empty, getitem, iloc_col.
  destruct (columns df); [reflexivity|]. now destruct (rows df).
Qed.

Lemma get_loc_first (first : string) (others : list string) :
  get_loc first (first :: others) = O.
Proof. cbn [get_loc]. now rewrite String.eqb_refl. Qed.

(** X7. The streak and the heatmap depend on the values of the resolved
    column only: two frames with the same column names and the same values
    in that column give the same results, whatever mood, reason or any
    other column hold. *)
Theorem only_the_resolved_column_matters
    (df1 df2 : DataFrame) (size : Z) (today : date) (name : string) :
  columns df1 = columns df2 ->
  resolved (streak_timestamp_col to_datetime1 to_datetime_kind df1) = Some name ->
  getitem df1 name = getitem df2 name ->
  calculate_streak to_datetime1 to_datetime_kind (OnDisk size (inr df1)) today
  = calculate_streak to_datetime1 to_datetime_kind (OnDisk size (inr df2)) today
  /\ create_activity_heatmap to_datetime1 to_datetime_kind calplot_raises
       (OnDisk size (inr df1))
     = create_activity_heatmap to_datetime1 to_datetime_kind calplot_raises
         (OnDisk size (inr df2)).
Proof.
  intros Hcols Hres Hcol.
  assert (Hempty : empty df1 = empty df2)
    by (rewrite (empty_of_column df1 name), (empty_of_column df2 name);
        now rewrite Hcols, Hcol).
  assert (Hdates : parsed_dates to_datetime1 df1 name
                   = parsed_dates to_datetime1 df2 name)
    by (now rewrite !parsed_dates_of_column, Hcol).
  assert (Hres2 : resolved (streak_timestamp_col to_datetime1 to_datetime_kind df2)
                  = Some name).
  { revert Hres. unfold streak_timestamp_col, has_column. rewrite <- Hcols.
    destruct (existsb (String.eqb "timestamp") (columns df1)); [auto|].
    destruct (existsb (String.eqb "Date and Time") (columns df1)); [auto|].
    destruct (columns df1) as [|first others] eqn:Ec; [auto|].
    cbn [List.length Nat.ltb Nat.leb nth].
    destruct (to_datetime_raise to_datetime1 to_datetime_kind (iloc_col 0 df1)) eqn:Er;
      [|discriminate].
    cbn [resolved]. destruct (truthy first) eqn:Et; [|discriminate].
    intros [= <-].
    assert (E0 : iloc_col 0 df2 = iloc_col 0 df1).
    { unfold getitem in Hcol. rewrite <- Hcols, Ec, get_loc_first in Hcol.
      now symmetry. }
    rewrite E0, Er. cbn [resolved]. now rewrite Et. }
  destruct (Z.eq_dec size 0) as [->|Hsize]; [split; reflexivity|].
  destruct (empty df1) eqn:E1.
  - unfold calculate_streak, create_activity_heatmap.
    destruct (Z.eqb_spec size 0); [contradiction|].
    now rewrite E1, <- Hempty.
  - split.
    + rewrite (calculate_streak_by_kind _ _ df1 size today name); try assumption.
      rewrite (calculate_streak_by_kind _ _ df2 size today name);
        try assumption; [now rewrite Hdates, Hcol | now rewrite <- Hempty].
    + rewrite (create_activity_heatmap_by_kind _ _ _ df1 size name);
        try assumption; [|now rewrite <- selections_agree].
      rewrite (create_activity_heatmap_by_kind _ _ _ df2 size name);
        try assumption;
        [now rewrite Hdates, Hcol | now rewrite <- Hempty
        | now rewrite <- selections_agree].
Qed.

End Pipeline.
(** ** The events of the heatmap *)

Lemma dt_date_date_to_datetime (d : date) : dt_date (date_to_datetime d) = d.
Proof.
  unfold dt_date, date_to_datetime, NS_PER_DAY.
  rewrite Z.div_mul by lia. lia.
Qed.

Lemma date_to_datetime_midnight (d : date) :
  date_to_datetime d mod NS_PER_DAY = 0.
Proof. unfold date_to_datetime, NS_PER_DAY. apply Z.mod_mul. lia. Qed.

Lemma midnight_date_to_datetime (t : timestamp) :
  t mod NS_PER_DAY = 0 -> date_to_datetime (dt_date t) = t.
Proof.
  unfold dt_date, date_to_datetime, NS_PER_DAY. intro Hmod.
  pose proof (Z.div_mod t 86400000000000 ltac:(lia)). lia.
Qed.

Lemma date_to_datetime_lt (d d' : date) :
  d < d' -> date_to_datetime d < date_to_datetime d'.
Proof. unfold date_to_datetime, NS_PER_DAY. lia. Qed.

Lemma events_of_In (counts : list (date * Z)) (t c : Z) :
  In (t, c) (events_of counts)
  <-> exists d, t = date_to_datetime d /\ In (d, c) counts.
Proof.
  unfold events_of. rewrite in_map_iff. split.
  - intros ([d c'] & [= <- <-] & Hin). now exists d.
  - intros (d & -> & Hin). now exists (d, c).
Qed.

Lemma events_of_sorted (counts : list (date * Z)) :
  ascending_index counts -> ascending_index (events_of counts).
Proof.
  unfold ascending_index, events_of. induction 1 as [|e counts Hs IH Hall];
    cbn [map]; constructor; [assumption|].
  rewrite Forall_forall in Hall |- *. intros e' He'.
  apply in_map_iff in He'. destruct He' as (e0 & <- & Hin).
  cbn [fst]. apply date_to_datetime_lt. now apply Hall.
Qed.

(** One entry of the count series per distinct date. *)
Lemma daily_counts_length (dates : list date) :
  List.length (daily_counts dates) = List.length (unique dates).
Proof.
  rewrite <- (length_map fst). apply Permutation_length.
  apply NoDup_Permutation; [apply daily_counts_NoDup | apply unique_NoDup |].
  intro d. rewrite unique_In, in_map_iff. split.
  - intros ([d' c] & <- & Hin). now apply daily_counts_In in Hin.
  - intro Hin. exists (d, occurrences d dates). split; [reflexivity|].
    apply daily_counts_In. now split.
Qed.

Lemma events_of_length (counts : list (date * Z)) :
  List.length (events_of counts) = List.length counts.
Proof. apply length_map. Qed.

Lemma parsed_dates_In (to_datetime1 : list cell -> string -> converted)
    (df : DataFrame) (name : string) (d : date) :
  In d (parsed_dates to_datetime1 df name)
  <-> exists record, In record (rows df)
                     /\ record_date to_datetime1 df name record = Some d.
Proof.
  unfold parsed_dates. rewrite in_flat_map. split.
  - intros (r & Hr & Hd). exists r. split; [assumption|].
    destruct (record_date to_datetime1 df name r) as [d'|]; [|contradiction].
    destruct Hd as [<-|[]]. reflexivity.
  - intros (r & Hr & E). exists r. split; [assumption|]. rewrite E. now left.
Qed.

Section Heatmap.

Variable to_datetime1 : list cell -> string -> converted.
Variable to_datetime_kind : list cell -> kind.
Variable calplot_raises : list (timestamp * Z) -> option string.

Lemma resolved_frame_has_column (df : DataFrame) (name : string) :
  resolved (heatmap_timestamp_col to_datetime1 to_datetime_kind df) = Some name ->
  columns df <> [].
Proof.
  unfold heatmap_timestamp_col, has_column. intros Hres Hnil.
  rewrite Hnil in Hres. discriminate Hres.
Qed.

Lemma events_of_nil (dates : list date) :
  events_of (daily_counts dates) = [] <-> dates = [].
Proof.
  split.
  - intro E. destruct dates as [|d dates]; [reflexivity|]. exfalso.
    assert (Hev : In (date_to_datetime d, occurrences d (d :: dates))
                     (events_of (daily_counts (d :: dates)))).
    { apply events_of_In. exists d. split; [reflexivity|].
      apply daily_counts_In. split; [now left | reflexivity]. }
    rewrite E in Hev. contradiction.
  - intros ->. reflexivity.
Qed.

(** What a returned figure tells about the file. *)
Lemma heatmap_figure_inv (file : csv_file) (messages : list st_message)
    (fig : figure) :
  create_activity_heatmap to_datetime1 to_datetime_kind calplot_raises file
  = (messages, value (Some fig)) ->
  exists size df name,
    file = OnDisk size (inr df) /\ size <> 0 /\ empty df = false
    /\ resolved (heatmap_timestamp_col to_datetime1 to_datetime_kind df) = Some name
    /\ to_datetime_kind (getitem df name) = datetimelike
    /\ messages = []
    /\ parsed_dates to_datetime1 df name <> []
    /\ calplot_raises (events_of (daily_counts (parsed_dates to_datetime1 df name)))
       = None
    /\ fig = calplot (events_of (daily_counts (parsed_dates to_datetime1 df name))).
Proof.
  intro E.
  destruct (create_activity_heatmap_cases to_datetime1 to_datetime_kind
              calplot_raises file)
    as [(messages' & E' & _)|(size & df & name & -> & Hsize & Hempty & Hres)].
  { rewrite E' in E. discriminate E. }
  rewrite (create_activity_heatmap_by_kind _ _ _ df size name Hsize Hempty Hres) in E.
  exists size, df, name.
  destruct (to_datetime_kind (getitem df name)) eqn:Hkind.
  - unfold figure_of_dates in E.
    destruct (events_of (daily_counts (parsed_dates to_datetime1 df name)))
      as [|ev events] eqn:Ee; [discriminate E|].
    destruct (calplot_raises (ev :: events)) eqn:Ec; [discriminate E|].
    injection E as <- <-.
    repeat split; try assumption; try reflexivity.
    intro Hnil. rewrite Hnil in Ee. discriminate Ee.
  - destruct (parsed_dates to_datetime1 df name); discriminate E.
  - discriminate E.
Qed.

(** X8. The heatmap function returns a figure exactly when the file is
    read, a timestamp column is resolved, [pd.to_datetime] yields a
    datetime column for it, at least one record parses and
    [calplot.calplot] does not raise on the events. *)
Theorem figure_iff_some_record_parses (file : csv_file) :
  (exists fig,
     snd (create_activity_heatmap to_datetime1 to_datetime_kind calplot_raises file)
     = value (Some fig))
  <-> exists size df name record d,
        file = OnDisk size (inr df) /\ size <> 0
        /\ resolved (heatmap_timestamp_col to_datetime1 to_datetime_kind df)
           = Some name
        /\ to_datetime_kind (getitem df name) = datetimelike
        /\ In record (rows df)
        /\ record_date to_datetime1 df name record = Some d
        /\ calplot_raises
             (events_of (daily_counts (parsed_dates to_datetime1 df name))) = None.
Proof.
  split.
  - intros (fig & E).
    destruct (create_activity_heatmap to_datetime1 to_datetime_kind calplot_raises file)
      as [messages r] eqn:Eh. cbn [snd] in E. subst r.
    destruct (heatmap_figure_inv _ _ _ Eh)
      as (size & df & name & -> & Hsize & _ & Hres & Hkind & _ & Hdates & Hplot & _).
    destruct (parsed_dates to_datetime1 df name) as [|d dates] eqn:Ed;
      [congruence|].
    destruct (proj1 (parsed_dates_In to_datetime1 df name d)) as (record & Hr & Hd);
      [rewrite Ed; now left|].
    exists size, df, name, record, d. now rewrite Ed.
  - intros (size & df & name & record & d & -> & Hsize & Hres & Hkind & Hr & Hd & Hplot).
    assert (Hin : In d (parsed_dates to_datetime1 df name))
      by (apply parsed_dates_In; now exists record).
    assert (Hempty : empty df = false).
    { pose proof (resolved_frame_has_column df name Hres) as Hc.
      unfold empty. destruct (columns df); [congruence|].
      destruct (rows df); [contradiction | reflexivity]. }
    rewrite (create_activity_heatmap_resolved _ _ _ df size name); try assumption.
    cbn [snd]. unfold figure_of_dates.
    destruct (events_of (daily_counts (parsed_dates to_datetime1 df name)))
      as [|ev events] eqn:Ee.
    + apply events_of_nil in Ee. rewrite Ee in Hin. contradiction.
    + rewrite Hplot. eauto.
Qed.

(** X9. The events of a returned figure are indexed by midnights in
    strictly ascending order, one per distinct parsed date of the input;
    the value at a midnight is the number of parsed records of that day;
    no message comes with the figure. *)
Theorem figure_events (file : csv_file) (messages : list st_message)
    (events : list (timestamp * Z)) :
  create_activity_heatmap to_datetime1 to_datetime_kind calplot_raises file
  = (messages, value (Some (calplot events))) ->
  messages = []
  /\ ascending_index events
  /\ List.length events
     = List.length (unique (input_dates to_datetime1 to_datetime_kind file))
  /\ forall t c,
       In (t, c) events
       <-> t mod NS_PER_DAY = 0
           /\ In (dt_date t) (input_dates to_datetime1 to_datetime_kind file)
           /\ c = occurrences (dt_date t)
                    (input_dates to_datetime1 to_datetime_kind file).
Proof.
  intro E.
  destruct (heatmap_figure_inv _ _ _ E)
    as (size & df & name & -> & Hsize & Hempty & Hres & _ & -> & Hdates & _ & [= ->]).
  cbn [input_dates]. rewrite selections_agree, Hres.
  split; [reflexivity|].
  split; [apply events_of_sorted, daily_counts_ascending|].
  split; [now rewrite events_of_length, daily_counts_length|].
  intros t c. rewrite events_of_In. split.
  - intros (d & -> & Hin). apply daily_counts_In in Hin.
    rewrite dt_date_date_to_datetime.
    split; [apply date_to_datetime_midnight | exact Hin].
  - intros (Hmid & Hin & ->). exists (dt_date t).
    split; [symmetry; now apply midnight_date_to_datetime|].
    apply daily_counts_In. now split.
Qed.

(** What a positive streak tells about the file. *)
Lemma calculate_streak_positive_inv (file : csv_file) (today : date)
    (messages : list st_message) (n : Z) :
  calculate_streak to_datetime1 to_datetime_kind file today = (messages, value n) ->
  0 < n ->
  exists size df name,
    file = OnDisk size (inr df) /\ size <> 0 /\ empty df = false
    /\ resolved (streak_timestamp_col to_datetime1 to_datetime_kind df) = Some name
    /\ to_datetime_kind (getitem df name) = datetimelike
    /\ messages = []
    /\ n = streak_of_dates (parsed_dates to_datetime1 df name) today.
Proof.
  intros E Hpos.
  destruct (calculate_streak_cases to_datetime1 to_datetime_kind file today)
    as [(messages' & E' & _)|(size & df & name & -> & Hsize & Hempty & Hres)].
  { rewrite E' in E. injection E as _ <-. lia. }
  rewrite (calculate_streak_by_kind _ _ df size today name Hsize Hempty Hres) in E.
  exists size, df, name.
  destruct (to_datetime_kind (getitem df name)) eqn:Hkind.
  - injection E as <- <-. repeat split; assumption.
  - destruct (parsed_dates to_datetime1 df name); [|discriminate E].
    injection E as _ <-. lia.
  - injection E as _ <-. lia.
Qed.

Lemma positive_streak_figure (file : csv_file) (today : date)
    (messages : list st_message) (n : Z) :
  calculate_streak to_datetime1 to_datetime_kind file today = (messages, value n) ->
  0 < n ->
  exists events,
    (create_activity_heatmap to_datetime1 to_datetime_kind calplot_raises file
     = ([], value (Some (calplot events)))
     \/ exists text,
          calplot_raises events = Some text
          /\ create_activity_heatmap to_datetime1 to_datetime_kind calplot_raises file
             = ([], raised (CalplotError text)))
    /\ n <= Z.of_nat (List.length events)
    /\ exists t c, In (t, c) events /\ 1 <= c
                   /\ (dt_date t = today \/ dt_date t = today - 1).
Proof.
  intros E Hpos.
  destruct (calculate_streak_positive_inv file today messages n E Hpos)
    as (size & df & name & -> & Hsize & Hempty & Hres & Hkind & _ & ->).
  set (dates := parsed_dates to_datetime1 df name) in *.
  assert (Hrecent : exists m, In m dates /\ (m = today \/ m = today - 1)).
  { destruct dates as [|d0 dates'] eqn:Ed;
      [rewrite streak_of_dates_nil in Hpos; lia|].
    destruct (dates_have_maximum (d0 :: dates')) as (m & Hm & Hmax);
      [discriminate|].
    exists m. split; [assumption|].
    destruct (Z.eq_dec m today) as [|N1]; [now left|].
    destruct (Z.eq_dec m (today - 1)) as [|N2]; [now right|].
    rewrite (streak_of_dates_broken _ today m Hm Hmax N1 N2) in Hpos. lia. }
  destruct Hrecent as (m & Hm & Hrecent).
  assert (Hev : In (date_to_datetime m, occurrences m dates)
                   (events_of (daily_counts dates))).
  { apply events_of_In. exists m. split; [reflexivity|].
    apply daily_counts_In. now split. }
  rewrite (create_activity_heatmap_resolved _ _ _ df size name);
    try assumption; [|now rewrite <- selections_agree].
  fold dates. unfold figure_of_dates.
  exists (events_of (daily_counts dates)). split; [|split].
  - destruct (events_of (daily_counts dates)) as [|ev events] eqn:Ee;
      [contradiction|].
    destruct (calplot_raises (ev :: events)) as [text|] eqn:Ec.
    + right. now exists text.
    + now left.
  - rewrite events_of_length, daily_counts_length. apply streak_of_dates_bounds.
  - exists (date_to_datetime m), (occurrences m dates).
    split; [assumption|]. split.
    + pose proof (proj2 (occurrences_pos m dates) Hm). lia.
    + now rewrite dt_date_date_to_datetime.
Qed.

(** X10. On one and the same file, a positive streak means that the heatmap
    function reaches [calplot.calplot] with at least as many events as the
    streak counts days, one of them for today or for the day before; it
    then returns the figure drawn from them without a message, unless
    [calplot.calplot] raises on them, in which case it ends with that
    exception. *)
Theorem positive_streak_has_figure (file : csv_file) (today : date)
    (messages : list st_message) (n : Z) :
  calculate_streak to_datetime1 to_datetime_kind file today = (messages, value n) ->
  0 < n ->
  exists events,
    (create_activity_heatmap to_datetime1 to_datetime_kind calplot_raises file
     = ([], value (Some (calplot events)))
     \/ exists text,
          calplot_raises events = Some text
          /\ create_activity_heatmap to_datetime1 to_datetime_kind calplot_raises file
             = ([], raised (CalplotError text)))
    /\ n <= Z.of_nat (List.length events)
    /\ exists t c, In (t, c) events /\ 1 <= c
                   /\ (dt_date t = today \/ dt_date t = today - 1).
Proof. apply positive_streak_figure. Qed.

Lemma calculate_streak_nonneg (file : csv_file) (today : date)
    (messages : list st_message) (n : Z) :
  calculate_streak to_datetime1 to_datetime_kind file today = (messages, value n) ->
  0 <= n.
Proof.
  intro E.
  destruct (calculate_streak_cases to_datetime1 to_datetime_kind file today)
    as [(messages' & E' & _)|(size & df & name & -> & Hsize & Hempty & Hres)].
  { rewrite E' in E. injection E as _ <-. lia. }
  rewrite (calculate_streak_by_kind _ _ df size today name Hsize Hempty Hres) in E.
  destruct (to_datetime_kind (getitem df name)).
  - injection E as _ <-. apply streak_of_dates_bounds.
  - destruct (parsed_dates to_datetime1 df name); [|discriminate E].
    injection E as _ <-. lia.
  - injection E as _ <-. lia.
Qed.

Lemma no_figure_zero_streak (file : csv_file) (today : date)
    (streak_messages heatmap_messages : list st_message) (n : Z) :
  calculate_streak to_datetime1 to_datetime_kind file today
  = (streak_messages, value n) ->
  create_activity_heatmap to_datetime1 to_datetime_kind calplot_raises file
  = (heatmap_messages, value None) ->
  n = 0.
Proof.
  intros Es Eh. pose proof (calculate_streak_nonneg file today _ _ Es) as Hge.
  destruct (Z.eq_dec n 0) as [|Hne]; [assumption|].
  destruct (positive_streak_figure file today _ _ Es)
    as (events & [E|(text & _ & E)] & _); [lia | |];
    rewrite E in Eh; discriminate Eh.
Qed.

Lemma streak_messages_at_most_one (file : csv_file) (today : date) :
  (List.length (fst (calculate_streak to_datetime1 to_datetime_kind file today))
   <= 1)%nat.
Proof.
  destruct (calculate_streak_cases to_datetime1 to_datetime_kind file today)
    as [(messages & E & Hlen)|(size & df & name & -> & Hsize & Hempty & Hres)].
  - now rewrite E.
  - rewrite (calculate_streak_by_kind _ _ df size today name Hsize Hempty Hres).
    destruct (to_datetime_kind (getitem df name)); cbn; lia.
Qed.

Lemma heatmap_messages_at_most_one (file : csv_file) :
  (List.length
     (fst (create_activity_heatmap to_datetime1 to_datetime_kind calplot_raises file))
   <= 1)%nat.
Proof.
  destruct (create_activity_heatmap_cases to_datetime1 to_datetime_kind
              calplot_raises file)
    as [(messages & E & Hlen)|(size & df & name & -> & Hsize & Hempty & Hres)].
  - now rewrite E.
  - rewrite (create_activity_heatmap_by_kind _ _ _ df size name Hsize Hempty Hres).
    destruct (to_datetime_kind (getitem df name)); cbn; lia.
Qed.

(** X17. A load of the page makes, in this order: the title, at most one
    message of the streak function, the metric, the sub-header, at most one
    message of the heatmap function, and then either the plot or the hint
    to log some moods; whenever it is the hint, the metric reads "0 Days".
    The load goes that far exactly when neither function raises: when the
    streak function raises, the script ends after the title and its
    messages; when the heatmap function raises, it ends after the
    sub-header and its messages, with no plot and no hint. *)
Theorem page_header_shape (file : csv_file) (today : date) :
  exists streak_messages,
    fst (calculate_streak to_datetime1 to_datetime_kind file today) = streak_messages
    /\ (List.length streak_messages <= 1)%nat
    /\ match snd (calculate_streak to_datetime1 to_datetime_kind file today) with
       | raised e =>
           page_header to_datetime1 to_datetime_kind calplot_raises file today
           = ([st_title "Log Your Mood"] ++ map st_shown streak_messages, Some e)
       | value n =>
           exists heatmap_messages,
             fst (create_activity_heatmap to_datetime1 to_datetime_kind
                    calplot_raises file) = heatmap_messages
             /\ (List.length heatmap_messages <= 1)%nat
             /\ let calls :=
                  [st_title "Log Your Mood"]
                  ++ map st_shown streak_messages
                  ++ [st_metric (streak_value n);
                      st_subheader "Your Mood Log Activity"]
                  ++ map st_shown heatmap_messages in
                match snd (create_activity_heatmap to_datetime1 to_datetime_kind
                             calplot_raises file) with
                | raised e =>
                    page_header to_datetime1 to_datetime_kind calplot_raises
                      file today = (calls, Some e)
                | value (Some fig) =>
                    page_header to_datetime1 to_datetime_kind calplot_raises
                      file today = (calls ++ [st_pyplot fig], None)
                | value None =>
                    page_header to_datetime1 to_datetime_kind calplot_raises
                      file today
                    = (calls
                       ++ [st_info "Log some moods to see your activity heatmap!"],
                       None)
                    /\ streak_value n = "0 Days"%string
                end
       end.
Proof.
  pose proof (streak_messages_at_most_one file today) as Hs.
  pose proof (heatmap_messages_at_most_one file) as Hh.
  pose proof (no_figure_zero_streak file today) as Hzero.
  unfold page_header.
  destruct (calculate_streak to_datetime1 to_datetime_kind file today)
    as [streak_messages [n|e]].
  - cbn [fst snd] in *. exists streak_messages.
    split; [reflexivity|]. split; [assumption|].
    destruct (create_activity_heatmap to_datetime1 to_datetime_kind calplot_raises file)
      as [heatmap_messages [[fig|]|e]]; cbn [fst snd] in *;
      exists heatmap_messages; (split; [reflexivity|]); (split; [assumption|]);
      cbn zeta; try reflexivity.
    split; [reflexivity|].
    now rewrite (Hzero streak_messages heatmap_messages n eq_refl eq_refl).
  - cbn [fst snd] in *. exists streak_messages.
    split; [reflexivity|]. split; [assumption | reflexivity].
Qed.

End Heatmap.

(** ** The submit handler *)

Lemma append_assoc (a b c : string) : ((a ++ b) ++ c = a ++ (b ++ c))%string.
Proof. induction a as [|x a IH]; cbn; [reflexivity | now rewrite IH]. Qed.

Lemma append_empty_r (a : string) : (a ++ "" = a)%string.
Proof. induction a as [|x a IH]; cbn; [reflexivity | now rewrite IH]. Qed.

Lemma length_zero_iff_empty (a : string) :
  (String.length a =? 0)%nat = true <-> a = ""%string.
Proof. destruct a; cbn; split; congruence. Qed.

Lemma append_nonempty_r (a b : string) :
  b <> ""%string -> (String.length (a ++ b) =? 0)%nat = false.
Proof.
  intro Hb. destruct a; cbn; [|reflexivity].
  destruct b; [congruence | reflexivity].
Qed.

Section SubmitFacts.

Variable to_csv : bool -> entry -> string.

Lemma submit_accepted (mood reason : string) (now : timestamp) (fs : data_dir) :
  truthy mood && truthy reason = true ->
  fst (submit to_csv mood reason now fs)
  = Dir (Some (log_text fs
               ++ to_csv (String.length (log_text fs) =? 0)%nat
                    (mkEntry now mood reason))%string).
Proof.
  intro Hok. unfold submit. rewrite Hok. cbn [fst].
  destruct fs as [|[text|]]; reflexivity.
Qed.

Lemma submit_rejected (mood reason : string) (now : timestamp) (fs : data_dir) :
  truthy mood && truthy reason = false ->
  fst (submit to_csv mood reason now fs) = fs.
Proof. intro Hno. unfold submit. now rewrite Hno. Qed.

(** X11. The log only grows: after any sequence of presses of the submit
    button the former text is a prefix of the text of the file, and when no
    press passes the test of line 187 the directory and the file are left
    exactly as they were. *)
Theorem submits_append_only
    (presses : list (string * string * timestamp)) (fs : data_dir) :
  (exists suffix, log_text (submits to_csv presses fs)
                  = (log_text fs ++ suffix)%string)
  /\ (accepted presses = [] -> submits to_csv presses fs = fs).
Proof.
  revert fs. induction presses as [|[[mood reason] now] presses IH]; intro fs.
  - cbn [submits]. split; [exists ""%string; now rewrite append_empty_r | reflexivity].
  - cbn [submits accepted flat_map].
    destruct (truthy mood && truthy reason) eqn:Hok.
    + rewrite (submit_accepted mood reason now fs Hok).
      destruct (IH (Dir (Some (log_text fs
                 ++ to_csv (String.length (log_text fs) =? 0)%nat
                      (mkEntry now mood reason))%string))) as [[suffix Hs] _].
      split; [|discriminate].
      cbn [log_text] in Hs. rewrite Hs, append_assoc. eauto.
    + rewrite (submit_rejected mood reason now fs Hok). cbn [app]. apply IH.
Qed.

(** X12. Provided [to_csv] never writes the empty text, the file after any
    sequence of presses is the former text followed by the accepted
    entries in order, the first of them under a header line exactly when
    the log held no text (no directory, no file or an empty file), the
    others without one: the header is written at most once. *)
Theorem submits_write_header_once
    (presses : list (string * string * timestamp)) (fs : data_dir) :
  (forall header e, to_csv header e <> ""%string) ->
  log_text (submits to_csv presses fs)
  = (log_text fs
     ++ fresh_log to_csv (String.length (log_text fs) =? 0)%nat
          (accepted presses))%string.
Proof.
  intro Hwrites. revert fs.
  induction presses as [|[[mood reason] now] presses IH]; intro fs.
  - cbn [submits accepted flat_map fresh_log]. now rewrite append_empty_r.
  - cbn [submits accepted flat_map].
    destruct (truthy mood && truthy reason) eqn:Hok.
    + rewrite (submit_accepted mood reason now fs Hok), IH.
      cbn [log_text app fresh_log].
      rewrite (append_nonempty_r _ _ (Hwrites _ _)).
      now rewrite append_assoc.
    + rewrite (submit_rejected mood reason now fs Hok). cbn [app]. apply IH.
Qed.

End SubmitFacts.

(** ** The log view *)



Section ViewFacts.

Variable to_datetime1 : list cell -> string -> converted.
Variable to_datetime_kind : list cell -> kind.
Variable strftime : timestamp -> string.

Lemma fillna_cell_not_missing (c : cell) : fillna_cell c <> None.
Proof. now destruct c. Qed.

Lemma display_row_length (width : nat) (rewritten : option (nat * cell))
    (record : list cell) :
  List.length (display_row width rewritten record) = width.
Proof. unfold display_row. now rewrite length_map, length_seq. Qed.

Lemma display_row_no_missing (width : nat) (rewritten : option (nat * cell))
    (record : list cell) :
  Forall (fun c : cell => c <> None) (display_row width rewritten record).
Proof.
  unfold display_row. apply Forall_forall. intros c Hc.
  apply in_map_iff in Hc. destruct Hc as (j & <- & _).
  apply fillna_cell_not_missing.
Qed.


Lemma normalised_length (col values : list cell) :
  normalised to_datetime1 to_datetime_kind strftime col = Some values ->
  List.length values = List.length col.
Proof.
  unfold normalised, to_datetime_coerce, assemble.
  destruct (to_datetime_kind col); try discriminate.
  intros [= <-]. unfold coerced. now rewrite !length_map.
Qed.

(** X13. The table of the log view has the columns of the frame and one row
    per record, each row with one cell per column, and no cell is missing:
    records whose timestamp does not parse are shown, not dropped. *)
Theorem view_table_is_complete (df_log : DataFrame) :
  columns (df_display to_datetime1 to_datetime_kind strftime df_log)
  = columns df_log
  /\ List.length (rows (df_display to_datetime1 to_datetime_kind strftime df_log))
     = List.length (rows df_log)
  /\ Forall (fun row => List.length row = List.length (columns df_log))
       (rows (df_display to_datetime1 to_datetime_kind strftime df_log))
  /\ no_missing (df_display to_datetime1 to_datetime_kind strftime df_log).
Proof.
  unfold df_display, no_missing. cbn [columns rows].
  split; [reflexivity|].
  destruct (timestamp_col_display df_log) as [name|];
    [destruct (truthy name);
     [destruct (normalised to_datetime1 to_datetime_kind strftime
                  (getitem df_log name)) as [values|] eqn:En|]|];
    cbn [option_map].
  2-4: (split; [apply length_map|]; split;
        apply Forall_forall; intros row Hrow; apply in_map_iff in Hrow;
        destruct Hrow as (record & <- & _);
        [apply display_row_length | apply display_row_no_missing]).
  apply normalised_length in En.
  split.
  - rewrite length_map, length_combine, En.
    unfold getitem, iloc_col. rewrite length_map. apply Nat.min_id.
  - split; apply Forall_forall; intros row Hrow; apply in_map_iff in Hrow;
      destruct Hrow as (rc & <- & _);
      [apply display_row_length | apply display_row_no_missing].
Qed.





(** X16. The log view makes exactly one call: a table exactly when the file
    exists, has a size other than 0 and is read into a frame with a row and
    a column; an error exactly when the read raises something other than
    [EmptyDataError]; an information text in every other case. *)
Theorem view_one_call (file : csv_file) :
  exists call,
    view_mood_log to_datetime1 to_datetime_kind strftime file = [call]
    /\ (is_dataframe call = true
        <-> exists size df, file = OnDisk size (inr df) /\ size <> 0
                            /\ empty df = false)
    /\ ((exists text, call = st_shown (st_error text))
        <-> exists size e, file = OnDisk size (inl e) /\ size <> 0
                           /\ forall text, e <> EmptyDataError text)
    /\ (is_dataframe call = true \/ (exists text, call = st_shown (st_error text))
        \/ exists text, call = st_info text).
Proof.
  unfold view_mood_log.
  destruct file as [|size read_csv].
  { eexists. split; [reflexivity|]. split; [|split].
    - split; [discriminate | intros (s & d & E & _); discriminate].
    - split; [intros (t & E); discriminate | intros (s & e & E & _); discriminate].
    - right. right. eauto. }
  destruct (Z.eqb_spec size 0) as [Hz|Hsize].
  { eexists. split; [reflexivity|]. split; [|split].
    - split; [discriminate | intros (s & d & [= <- _] & Hs & _); contradiction].
    - split; [intros (t & E); discriminate
             | intros (s & e & [= <- _] & Hs & _); contradiction].
    - right. right. eauto. }
  destruct read_csv as [[text|text|text]|df].
  - eexists. split; [reflexivity|]. split; [|split].
    + split; [discriminate | intros (s & d & E & _); discriminate].
    + split; [|eauto]. intros _. exists size, (FileNotFoundError text).
      repeat split; [assumption | discriminate].
    + right. left. eauto.
  - eexists. split; [reflexivity|]. split; [|split].
    + split; [discriminate | intros (s & d & E & _); discriminate].
    + split; [intros (t & E); discriminate|].
      intros (s & e & [= _ <-] & _ & Hne). exfalso. now apply (Hne text).
    + right. right. eauto.
  - eexists. split; [reflexivity|]. split; [|split].
    + split; [discriminate | intros (s & d & E & _); discriminate].
    + split; [|eauto]. intros _. exists size, (OtherException text).
      repeat split; [assumption | discriminate].
    + right. left. eauto.
  - destruct (empty df) eqn:Hempty.
    + eexists. split; [reflexivity|]. split; [|split].
      * split; [discriminate|]. intros (s & d & [= _ <-] & _ & He). congruence.
      * split; [intros (t & E); discriminate
               | intros (s & e & E & _); discriminate].
      * right. right. eauto.
    + eexists. split; [reflexivity|]. split; [|split].
      * split; [|reflexivity]. intros _. now exists size, df.
      * split; [intros (t & E); discriminate
               | intros (s & e & E & _); discriminate].
      * left. reflexivity.
Qed.

End ViewFacts.

(** ** One more record in the frame *)

Section OneMoreRecord.

Variable to_datetime1 : list cell -> string -> converted.
Variable to_datetime_kind : list cell -> kind.

Lemma calculate_streak_of_resolved (df : DataFrame) (size : Z) (today : date)
    (name : string) :
  size <> 0 ->
  resolved (streak_timestamp_col to_datetime1 to_datetime_kind df) = Some name ->
  to_datetime_kind (getitem df name) = datetimelike ->
  calculate_streak to_datetime1 to_datetime_kind (OnDisk size (inr df)) today
  = ([], value (streak_of_dates (parsed_dates to_datetime1 df name) today)).
Proof.
  intros Hsize Hres Hkind. destruct (empty df) eqn:Hempty.
  - assert (Hrows : rows df = []).
    { unfold empty in Hempty.
      destruct (columns df) eqn:Hc; [|now destruct (rows df)].
      exfalso. revert Hres. unfold streak_timestamp_col, has_column.
      rewrite Hc. discriminate. }
    unfold calculate_streak, parsed_dates.
    destruct (Z.eqb_spec size 0); [contradiction|].
    now rewrite Hempty, Hrows.
  - now apply calculate_streak_resolved.
Qed.

Lemma flat_map_agree {A B : Type} (f g : A -> list B) (l : list A) :
  (forall a, In a l -> f a = g a) -> flat_map f l = flat_map g l.
Proof.
  induction l as [|a l IH]; cbn [flat_map]; intro H; [reflexivity|].
  rewrite (H a (or_introl eq_refl)), IH; [reflexivity|].
  intros b Hb. apply H. now right.
Qed.

Lemma getitem_with_record (df : DataFrame) (name : string) (record : list cell) :
  getitem (with_record df record) name
  = getitem df name ++ [nth (get_loc name (columns df)) record None].
Proof. unfold getitem, iloc_col. cbn [with_record rows columns]. apply map_app. Qed.

Lemma parsed_dates_with_record (df : DataFrame) (name : string)
    (record : list cell) (d : date) :
  (forall c, In c (getitem df name) ->
     convert_cell to_datetime1 (getitem (with_record df record) name) c
     = convert_cell to_datetime1 (getitem df name) c) ->
  record_date to_datetime1 (with_record df record) name record = Some d ->
  parsed_dates to_datetime1 (with_record df record) name
  = parsed_dates to_datetime1 df name ++ [d].
Proof.
  intros Hstable Hd. unfold parsed_dates at 1. cbn [with_record rows].
  rewrite flat_map_app. cbn [flat_map]. fold (with_record df record).
  rewrite Hd, app_nil_r. f_equal.
  unfold parsed_dates. apply flat_map_agree. intros r Hr.
  unfold record_date. cbn [with_record columns]. fold (with_record df record).
  rewrite Hstable; [reflexivity|].
  unfold getitem, iloc_col. apply in_map_iff. now exists r.
Qed.

Lemma resolved_with_record (df : DataFrame) (name : string)
    (record : list cell) (d : date) :
  resolved (streak_timestamp_col to_datetime1 to_datetime_kind df) = Some name ->
  (forall c, In c (getitem df name) ->
     convert_cell to_datetime1 (getitem (with_record df record) name) c
     = convert_cell to_datetime1 (getitem df name) c) ->
  record_date to_datetime1 (with_record df record) name record = Some d ->
  to_datetime_kind (getitem (with_record df record) name) = datetimelike ->
  resolved (streak_timestamp_col to_datetime1 to_datetime_kind (with_record df record))
  = Some name.
Proof.
  unfold streak_timestamp_col, has_column. cbn [with_record columns].
  destruct (existsb (String.eqb "timestamp") (columns df)); [auto|].
  destruct (existsb (String.eqb "Date and Time") (columns df)); [auto|].
  destruct (columns df) as [|first others] eqn:Hc; [auto|].
  cbn [List.length Nat.ltb Nat.leb nth].
  fold (with_record df record).
  destruct (to_datetime_raise to_datetime1 to_datetime_kind (iloc_col 0 df))
    as [l|] eqn:Er; [|discriminate].
  cbn [resolved]. destruct (truthy first) eqn:Et; [|discriminate].
  intros [= <-] Hstable Hd Hkind.
  assert (E0 : forall f, getitem f first = iloc_col 0 f \/ columns f <> first :: others).
  { intro f. destruct (list_eq_dec string_dec (columns f) (first :: others)) as [E|N];
      [left | now right].
    unfold getitem. now rewrite E, get_loc_first. }
  destruct (E0 df) as [Eold|N]; [|congruence].
  destruct (E0 (with_record df record)) as [Enew|N];
    [|cbn [with_record columns] in N; congruence].
  rewrite Eold in Hstable. rewrite Enew in Hstable, Hkind.
  destruct (to_datetime_raise to_datetime1 to_datetime_kind
              (iloc_col 0 (with_record df record)))
    as [l'|] eqn:Er'; [cbn [resolved]; now rewrite Et|].
  exfalso. apply to_datetime_raise_None in Er'.
  destruct Er' as [(c & Hin & Hbad)|(text & Hk)]; [|congruence].
  rewrite <- Enew, getitem_with_record, Eold in Hin.
  apply in_app_iff in Hin. destruct Hin as [Hin|[<-|[]]].
  - rewrite (Hstable c Hin) in Hbad.
    assert (Hnone : to_datetime_raise to_datetime1 to_datetime_kind (iloc_col 0 df)
                    = None)
      by (apply to_datetime_raise_None; left; now exists c).
    congruence.
  - unfold record_date in Hd. cbn [with_record columns] in Hd.
    fold (with_record df record) in Hd. rewrite Enew in Hd.
    unfold cell in *. rewrite Hbad in Hd. discriminate Hd.
Qed.

(** X18. Take a frame with a resolved timestamp column whose parsed dates
    are none after today, and append one record whose timestamp parses to a
    time of today. Provided [pd.to_datetime] converts the former values in
    the longer column as it did before, and yields a datetime column
    before and after, the column stays resolved and the streak returned is
    one more if it is the first record of the day, and the same if the day
    already had one. *)
Theorem record_of_today_and_streak
    (df : DataFrame) (record : list cell) (size size' : Z) (today : date)
    (name : string) :
  size <> 0 -> size' <> 0 ->
  resolved (streak_timestamp_col to_datetime1 to_datetime_kind df) = Some name ->
  (forall c, In c (getitem df name) ->
     convert_cell to_datetime1 (getitem (with_record df record) name) c
     = convert_cell to_datetime1 (getitem df name) c) ->
  to_datetime_kind (getitem df name) = datetimelike ->
  to_datetime_kind (getitem (with_record df record) name) = datetimelike ->
  record_date to_datetime1 (with_record df record) name record = Some today ->
  (forall d, In d (parsed_dates to_datetime1 df name) -> d <= today) ->
  resolved (streak_timestamp_col to_datetime1 to_datetime_kind (with_record df record))
  = Some name
  /\ exists n,
       calculate_streak to_datetime1 to_datetime_kind (OnDisk size (inr df)) today
       = ([], value n)
       /\ (In today (parsed_dates to_datetime1 df name) ->
           calculate_streak to_datetime1 to_datetime_kind
             (OnDisk size' (inr (with_record df record))) today
           = ([], value n))
       /\ (~ In today (parsed_dates to_datetime1 df name) ->
           calculate_streak to_datetime1 to_datetime_kind
             (OnDisk size' (inr (with_record df record))) today
           = ([], value (n + 1))).
Proof.
  intros Hsize Hsize' Hres Hstable Hkind Hkind' Hrec Hmax.
  pose proof (resolved_with_record df name record today Hres Hstable Hrec Hkind')
    as Hres'.
  split; [assumption|].
  exists (streak_of_dates (parsed_dates to_datetime1 df name) today).
  split; [now apply calculate_streak_of_resolved|].
  rewrite (calculate_streak_of_resolved (with_record df record) size' today name
             Hsize' Hres' Hkind').
  rewrite (parsed_dates_with_record df name record today Hstable Hrec).
  split.
  - intro Hin. do 2 f_equal. apply streak_of_dates_ext. intro x.
    rewrite in_app_iff. split.
    + intros [Hx|[<-|[]]]; assumption.
    + intro Hx. now left.
  - intro Hnot. do 2 f_equal. apply streak_of_dates_log_today.
    + intros d Hd. specialize (Hmax d Hd).
      assert (d <> today) by (intro; subst; contradiction). lia.
    + symmetry. apply Permutation_cons_append.
Qed.

End OneMoreRecord.

(** ** Instances of the further theorems that have premises *)

Lemma streak_at_least_iff_witness : 3 <= streak_of_dates [10; 5; 9; 8] 10.
Proof.
  apply (proj2 (streak_at_least_iff [10; 5; 9; 8] 10 3 ltac:(lia))).
  exists 10. split; [now left|]. split.
  - intros d Hd. simpl in Hd. lia.
  - split; [now left|]. intros d Hd. simpl. lia.
Defined.

Lemma streak_kept_until_a_day_is_missed_witness :
  streak_of_dates [9; 8] 10 = streak_of_dates [9; 8] (10 - 1)
  /\ streak_of_dates [8; 7] 10 = 0.
Proof.
  split.
  - apply (proj1 (streak_kept_until_a_day_is_missed [9; 8] 10
                    ltac:(intros d Hd; simpl in Hd; lia))).
    now left.
  - apply (proj2 (streak_kept_until_a_day_is_missed [8; 7] 10
                    ltac:(intros d Hd; simpl in Hd; lia))).
    simpl. lia.
Defined.

Lemma logging_today_extends_streak_witness :
  streak_of_dates [9; 10; 8] 10 = streak_of_dates [9; 8] 10 + 1.
Proof.
  apply (logging_today_extends_streak [9; 8] [9; 10; 8] 10).
  - intros d Hd. simpl in Hd. lia.
  - apply perm_swap.
Defined.

Lemma message_only_with_default_witness :
  snd (calculate_streak Iso.in_column Iso.kind_of
         (Sample.on_disk Sample.first_column_bad) Sample.jan_3) = value 0
  /\ snd (create_activity_heatmap Iso.in_column Iso.kind_of Iso.calplot_raises
            (OnDisk 7 (inl (OtherException "Error tokenizing data")))) = value None.
Proof.
  split.
  - apply (proj2 (proj1 (message_only_with_default Iso.in_column Iso.kind_of
                           Iso.calplot_raises
                           (Sample.on_disk Sample.first_column_bad) Sample.jan_3))).
    discriminate.
  - apply (proj2 (proj2 (message_only_with_default Iso.in_column Iso.kind_of
                           Iso.calplot_raises
                           (OnDisk 7 (inl (OtherException "Error tokenizing data")))
                           Sample.jan_3))).
    discriminate.
Defined.

Lemma fallback_column_is_all_or_nothing_witness :
  calculate_streak Iso.in_column Iso.kind_of
    (OnDisk 180 (inr Sample.first_column_bad)) (Iso.ordinal 2024 1 2)
  = ([st_warning "Streak: Could not identify a suitable timestamp column."],
     value 0)
  /\ create_activity_heatmap Iso.in_column Iso.kind_of Iso.calplot_raises
       (OnDisk 180 (inr Sample.first_column_bad))
     = ([st_warning "Heatmap: Could not identify a suitable timestamp column."],
        value None).
Proof.
  apply (fallback_column_is_all_or_nothing Iso.in_column Iso.kind_of
           Iso.calplot_raises Sample.first_column_bad 180 (Iso.ordinal 2024 1 2)
           [Some "soon"; Some "Sad"]%string).
  - discriminate.
  - reflexivity.
  - reflexivity.
  - reflexivity.
  - right. left. reflexivity.
  - reflexivity.
Defined.

Lemma only_the_resolved_column_matters_witness :
  calculate_streak Iso.in_column Iso.kind_of
    (OnDisk 180 (inr Sample.three_days)) Sample.jan_3
  = calculate_streak Iso.in_column Iso.kind_of
      (OnDisk 180 (inr three_days_other_moods)) Sample.jan_3
  /\ create_activity_heatmap Iso.in_column Iso.kind_of Iso.calplot_raises
       (OnDisk 180 (inr Sample.three_days))
     = create_activity_heatmap Iso.in_column Iso.kind_of Iso.calplot_raises
         (OnDisk 180 (inr three_days_other_moods)).
Proof.
  apply (only_the_resolved_column_matters Iso.in_column Iso.kind_of
           Iso.calplot_raises Sample.three_days three_days_other_moods 180
           Sample.jan_3 "timestamp"%string); reflexivity.
Defined.

Lemma figure_events_witness :
  ascending_index [(date_to_datetime Sample.jan_3, 2)]
  /\ List.length [(date_to_datetime Sample.jan_3, 2)]
     = List.length
         (unique (input_dates Iso.in_column Iso.kind_of
                    (Sample.on_disk Sample.legacy))).
Proof.
  destruct (figure_events Iso.in_column Iso.kind_of Iso.calplot_raises
              (Sample.on_disk Sample.legacy) []
              [(date_to_datetime Sample.jan_3, 2)] eq_refl)
    as (_ & Hsorted & Hlength & _).
  split; [exact Hsorted | exact Hlength].
Defined.

Lemma positive_streak_has_figure_witness :
  (exists events,
     (create_activity_heatmap Iso.in_column Iso.kind_of Iso.calplot_raises
        (Sample.on_disk Sample.three_days)
      = ([], value (Some (calplot events)))
      \/ exists text,
           Iso.calplot_raises events = Some text
           /\ create_activity_heatmap Iso.in_column Iso.kind_of Iso.calplot_raises
                (Sample.on_disk Sample.three_days)
              = ([], raised (CalplotError text)))
     /\ 3 <= Z.of_nat (List.length events))
  /\ (exists events,
        (create_activity_heatmap Iso.in_column Iso.kind_of Iso.calplot_raises
           (Sample.on_disk Sample.far_past)
         = ([], value (Some (calplot events)))
         \/ exists text,
              Iso.calplot_raises events = Some text
              /\ create_activity_heatmap Iso.in_column Iso.kind_of Iso.calplot_raises
                   (Sample.on_disk Sample.far_past)
                 = ([], raised (CalplotError text)))
        /\ 1 <= Z.of_nat (List.length events)).
Proof.
  split.
  - destruct (positive_streak_has_figure Iso.in_column Iso.kind_of Iso.calplot_raises
                (Sample.on_disk Sample.three_days) Sample.jan_3 [] 3)
      as (events & Hfig & Hcount & _).
    + reflexivity.
    + reflexivity.
    + exists events. split; [exact Hfig | exact Hcount].
  - destruct (positive_streak_has_figure Iso.in_column Iso.kind_of Iso.calplot_raises
                (Sample.on_disk Sample.far_past) Sample.jan_3 [] 1)
      as (events & Hfig & Hcount & _).
    + reflexivity.
    + reflexivity.
    + exists events. split; [exact Hfig | exact Hcount].
Defined.

Example far_past_record_stops_the_heatmap :
  calculate_streak Iso.in_column Iso.kind_of
    (Sample.on_disk Sample.far_past) Sample.jan_3 = ([], value 1)
  /\ create_activity_heatmap Iso.in_column Iso.kind_of Iso.calplot_raises
       (Sample.on_disk Sample.far_past)
     = ([], raised (CalplotError "Out of bounds nanosecond timestamp")).
Proof. split; reflexivity. Qed.

Lemma submits_append_only_witness :
  submits sample_to_csv [("Happy", "", 5)]%string (Dir (Some "x"%string))
  = Dir (Some "x"%string).
Proof.
  apply (proj2 (submits_append_only sample_to_csv [("Happy", "", 5)]%string
                  (Dir (Some "x"%string)))).
  reflexivity.
Defined.

Lemma append_eq_empty (a b : string) :
  (a ++ b)%string = ""%string -> a = ""%string /\ b = ""%string.
Proof. destruct a; cbn; [auto | discriminate]. Qed.

Lemma sample_to_csv_writes (header : bool) (e : entry) :
  sample_to_csv header e <> ""%string.
Proof.
  unfold sample_to_csv. intro E.
  apply append_eq_empty in E. destruct E as [_ E].
  apply append_eq_empty in E. destruct E as [_ E].
  discriminate E.
Qed.

Lemma submits_write_header_once_witness :
  log_text (submits sample_to_csv
              [("Happy", "sun", 1704269700000000000);
               ("Sad", "", 1704269800000000000);
               ("Sad", "rain", 1704318000000000000)]%string NoDir)
  = fresh_log sample_to_csv true
      [mkEntry 1704269700000000000 "Happy" "sun";
       mkEntry 1704318000000000000 "Sad" "rain"]%string.
Proof.
  exact (submits_write_header_once sample_to_csv
           [("Happy", "sun", 1704269700000000000);
            ("Sad", "", 1704269800000000000);
            ("Sad", "rain", 1704318000000000000)]%string NoDir
           sample_to_csv_writes).
Defined.




Lemma record_of_today_and_streak_witness :
  calculate_streak Iso.in_column Iso.kind_of
    (OnDisk 200 (inr (with_record Sample.first_column
                        [Some "2024-01-04"; Some "Happy"]%string)))
    (Iso.ordinal 2024 1 4)
  = ([], value 3).
Proof.
  destruct (record_of_today_and_streak Iso.in_column Iso.kind_of
              Sample.first_column [Some "2024-01-04"; Some "Happy"]%string
              180 200 (Iso.ordinal 2024 1 4) "when"%string)
    as (_ & n & Hbefore & _ & Hafter).
  - discriminate.
  - discriminate.
  - reflexivity.
  - intros c Hc. destruct Hc as [<-|[<-|[<-|[]]]]; reflexivity.
  - reflexivity.
  - reflexivity.
  - reflexivity.
  - intros d Hd. vm_compute in Hd.
    destruct Hd as [<-|[<-|[]]]; vm_compute; discriminate.
  - injection Hbefore as <-. apply Hafter.
    vm_compute. intros [E|[E|[]]]; discriminate E.
Defined.
